(** * AudioDpiSwitcher: state cache, refresh pass and monitor mapping store

    A shallow embedding of [audio_taskbar_switcher.pyw]: the cached [state]
    dictionary, the refresh pass [collect_state], the mapping store
    ([load_map], [save_map], [set_mapping]), the menu handlers and the
    index-mapping submenu.

    Python values read from JSON are the inductive [json]; dictionaries with
    string keys kept by the program ([idx_map], [dpi], [defs]) are [gmap]s;
    external processes and the file system are queues of outcomes held in the
    [World], threaded through a state-and-exception monad [M]. *)

From Stdlib Require Import Ascii String.
From stdpp Require Import gmap strings list fin_maps pretty relations.

Open Scope Z_scope.
Set Warnings "-register-all".

(** ** Python values *)

(** A Python [float]: not-a-number, an infinity, or the exact rational
    [num / den] a finite float denotes. *)
Inductive pyfloat :=
  | FNan
  | FInf (neg : bool)
  | FFin (num : Z) (den : positive).

(** What [json.loads] / [json.load] return. [JObj kvs] is a [dict]; [kvs]
    lists its items in iteration order. *)
Inductive json :=
  | JNull
  | JBool (b : bool)
  | JInt (z : Z)
  | JFloat (f : pyfloat)
  | JStr (s : string)
  | JArr (xs : list json)
  | JObj (kvs : list (string * json)).

(** Subclasses of [Exception] that the modelled code can meet. *)
Inductive exn :=
  | AttributeError
  | TypeError
  | ValueError
  | OverflowError
  | JSONDecodeError
  | OSError
  | RuntimeError.

Inductive result (A : Type) :=
  | Ok (a : A)
  | Raise (e : exn).
Arguments Ok {A} a.
Arguments Raise {A} e.

#[global] Instance result_ret : MRet result := λ A a, Ok a.
#[global] Instance result_bind : MBind result := λ A B f r,
  match r with Ok a => f a | Raise e => Raise e end.

(** Built-in string operations of Python the program calls: [str.strip()]
    and [int(s)] on a [str] ([None] stands for [ValueError]). *)
Class PyBuiltins := {
  str_strip : string → string;
  int_of_str : string → option Z;
}.

(** [bool(v)]. *)
Definition truthy (v : json) : bool :=
  match v with
  | JNull => false
  | JBool b => b
  | JInt z => negb (z =? 0)
  | JFloat FNan => true
  | JFloat (FInf _) => true
  | JFloat (FFin n _) => negb (n =? 0)
  | JStr s => negb (String.eqb s "")
  | JArr xs => match xs with [] => false | _ => true end
  | JObj kvs => match kvs with [] => false | _ => true end
  end.

(** [a or b]. *)
Definition py_or (a b : json) : json := if truthy a then a else b.

(** [v == n] for an [int] literal [n]. *)
Definition py_eq_int (v : json) (n : Z) : bool :=
  match v with
  | JBool b => (if b then 1 else 0) =? n
  | JInt z => z =? n
  | JFloat (FFin num den) => num =? n * Z.pos den
  | _ => false
  end.

Section Builtins.
Context `{PyBuiltins}.

(** [int(v)]. *)
Definition py_int (v : json) : result Z :=
  match v with
  | JNull => Raise TypeError
  | JBool b => Ok (if b then 1 else 0)
  | JInt z => Ok z
  | JFloat FNan => Raise ValueError
  | JFloat (FInf _) => Raise OverflowError
  | JFloat (FFin num den) => Ok (Z.quot num (Z.pos den))
  | JStr s => match int_of_str s with Some z => Ok z | None => Raise ValueError end
  | JArr _ => Raise TypeError
  | JObj _ => Raise TypeError
  end.

(** [v.strip()]: only [str] has the method. *)
Definition py_strip (v : json) : result string :=
  match v with
  | JStr s => Ok (str_strip s)
  | _ => Raise AttributeError
  end.

End Builtins.

Fixpoint dict_get (kvs : list (string * json)) (k : string) : option json :=
  match kvs with
  | [] => None
  | (k', v) :: rest => if String.eqb k' k then Some v else dict_get rest k
  end.

(** [d.get(k, dflt)]: only [dict] has the method. *)
Definition py_get (d : json) (k : string) (dflt : json) : result json :=
  match d with
  | JObj kvs => Ok (default dflt (dict_get kvs k))
  | _ => Raise AttributeError
  end.

Fixpoint chars (s : string) : list json :=
  match s with
  | EmptyString => []
  | String a s' => JStr (String a EmptyString) :: chars s'
  end.

(** [for x in v]: the items a [for] loop visits. *)
Definition py_iter (v : json) : result (list json) :=
  match v with
  | JArr xs => Ok xs
  | JStr s => Ok (chars s)
  | JObj kvs => Ok (JStr <$> kvs.*1)
  | _ => Raise TypeError
  end.

(** ** The cached state *)

(** An element of [state["mons"]]: [{'index':.., 'name':.., 'fp':..}]. *)
Record Monitor := {
  mon_index : Z;
  mon_name : json;
  mon_fp : string;
}.

(** The module-level [state] dictionary, one field per key. *)
Record State := {
  outs : list (json * json);
  ins : list (json * json);
  defs : gmap string (option string);
  mons : list Monitor;
  dpi : gmap Z string;
  idx_map : gmap string Z;
  last_update : Z;
}.

Definition state0 : State :=
  {| outs := []; ins := []; defs := ∅; mons := []; dpi := ∅; idx_map := ∅;
     last_update := 0 |}.

Definition with_idx_map (m : gmap string Z) (s : State) : State :=
  {| outs := outs s; ins := ins s; defs := defs s; mons := mons s;
     dpi := dpi s; idx_map := m; last_update := last_update s |}.

(** ** The world outside the interpreter *)

(** A finished [subprocess.run(..., capture_output=True, text=True)]:
    its [stdout], and what [json.loads] makes of that text ([None]: it is
    rejected). *)
Record CompletedProcess := {
  stdout : string;
  stdout_json : option json;
}.

(** PowerShell scripts the program runs. *)
Inductive ps_script :=
  | GetAudioDeviceList
  | GetAudioDeviceID (param : string)
  | SetAudioDevice (device_id : json) (flag : string)
  | GetWmiMonitorID.

(** Processes started, in order. *)
Inductive launch :=
  | PowerShell (script : ps_script)
  | SetDpiValue (monitor : Z)
  | SetDpiSet (percent : Z) (monitor : option Z).

(** [MAP_FILE] on disk: absent, present with text [json.load] rejects
    (empty, truncated, not JSON), or present with a document. *)
Inductive file :=
  | Missing
  | Unparsable
  | Holds (j : json).

(** Threads started with [threading.Thread(target=..).start()]. *)
Inductive task :=
  | RefreshWorker
  | SetDpiWork (pct idx : Z)
  | SetAudioWork (device_id : json) (role : string).

(** [ps_out], [setdpi_out]: outcomes of the PowerShell and SetDpi.exe runs
    still to come, first run first (an exhausted queue prints nothing).
    [fs_faults]: for each coming file operation (open, read, write) whether
    it raises [OSError]. [update_menu_out]: whether the coming
    [tray_icon.update_menu()] calls raise. *)
Record World := {
  ps_out : list (result CompletedProcess);
  setdpi_isfile : bool;
  setdpi_out : list (result string);
  fs_faults : list bool;
  update_menu_out : list (option exn);
  clock : Z;
  tray_icon : bool;
  map_file : file;
  state : State;
  threads : list task;
  launched : list launch;
  printed : list exn;
  menu_updates : nat;
}.

Definition set_ps_out (q : list (result CompletedProcess)) (w : World) : World :=
  {| ps_out := q; setdpi_isfile := setdpi_isfile w; setdpi_out := setdpi_out w;
     fs_faults := fs_faults w; update_menu_out := update_menu_out w;
     clock := clock w; tray_icon := tray_icon w; map_file := map_file w;
     state := state w; threads := threads w; launched := launched w;
     printed := printed w; menu_updates := menu_updates w |}.

Definition set_setdpi_out (q : list (result string)) (w : World) : World :=
  {| ps_out := ps_out w; setdpi_isfile := setdpi_isfile w; setdpi_out := q;
     fs_faults := fs_faults w; update_menu_out := update_menu_out w;
     clock := clock w; tray_icon := tray_icon w; map_file := map_file w;
     state := state w; threads := threads w; launched := launched w;
     printed := printed w; menu_updates := menu_updates w |}.

Definition set_fs_faults (q : list bool) (w : World) : World :=
  {| ps_out := ps_out w; setdpi_isfile := setdpi_isfile w;
     setdpi_out := setdpi_out w;
     fs_faults := q; update_menu_out := update_menu_out w;
     clock := clock w; tray_icon := tray_icon w; map_file := map_file w;
     state := state w; threads := threads w; launched := launched w;
     printed := printed w; menu_updates := menu_updates w |}.

Definition set_update_menu (q : list (option exn)) (n : nat) (w : World) : World :=
  {| ps_out := ps_out w; setdpi_isfile := setdpi_isfile w;
     setdpi_out := setdpi_out w;
     fs_faults := fs_faults w; update_menu_out := q;
     clock := clock w; tray_icon := tray_icon w; map_file := map_file w;
     state := state w; threads := threads w; launched := launched w;
     printed := printed w; menu_updates := n |}.

Definition set_map_file (f : file) (w : World) : World :=
  {| ps_out := ps_out w; setdpi_isfile := setdpi_isfile w;
     setdpi_out := setdpi_out w;
     fs_faults := fs_faults w; update_menu_out := update_menu_out w;
     clock := clock w; tray_icon := tray_icon w; map_file := f;
     state := state w; threads := threads w; launched := launched w;
     printed := printed w; menu_updates := menu_updates w |}.

Definition set_state (s : State) (w : World) : World :=
  {| ps_out := ps_out w; setdpi_isfile := setdpi_isfile w;
     setdpi_out := setdpi_out w;
     fs_faults := fs_faults w; update_menu_out := update_menu_out w;
     clock := clock w; tray_icon := tray_icon w; map_file := map_file w;
     state := s; threads := threads w; launched := launched w;
     printed := printed w; menu_updates := menu_updates w |}.

Definition set_threads (ts : list task) (w : World) : World :=
  {| ps_out := ps_out w; setdpi_isfile := setdpi_isfile w;
     setdpi_out := setdpi_out w;
     fs_faults := fs_faults w; update_menu_out := update_menu_out w;
     clock := clock w; tray_icon := tray_icon w; map_file := map_file w;
     state := state w; threads := ts; launched := launched w;
     printed := printed w; menu_updates := menu_updates w |}.

Definition set_launched (ls : list launch) (w : World) : World :=
  {| ps_out := ps_out w; setdpi_isfile := setdpi_isfile w;
     setdpi_out := setdpi_out w;
     fs_faults := fs_faults w; update_menu_out := update_menu_out w;
     clock := clock w; tray_icon := tray_icon w; map_file := map_file w;
     state := state w; threads := threads w; launched := ls;
     printed := printed w; menu_updates := menu_updates w |}.

Definition set_printed (ps : list exn) (w : World) : World :=
  {| ps_out := ps_out w; setdpi_isfile := setdpi_isfile w;
     setdpi_out := setdpi_out w;
     fs_faults := fs_faults w; update_menu_out := update_menu_out w;
     clock := clock w; tray_icon := tray_icon w; map_file := map_file w;
     state := state w; threads := threads w; launched := launched w;
     printed := ps; menu_updates := menu_updates w |}.

(** ** Computations: state passing with exceptions *)

Definition M (A : Type) : Type := World → result A * World.

#[global] Instance M_ret : MRet M := λ A a w, (Ok a, w).
#[global] Instance M_bind : MBind M := λ A B f c w,
  match c w with
  | (Ok a, w') => f a w'
  | (Raise e, w') => (Raise e, w')
  end.

(** A pure step that may raise. *)
Definition lift {A} (r : result A) : M A := λ w, (r, w).

(** [try: c  except Exception as e: h e]. *)
Definition try_except {A} (c : M A) (h : exn → M A) : M A := λ w,
  match c w with
  | (Ok a, w') => (Ok a, w')
  | (Raise e, w') => h e w'
  end.

(** [try: c  finally: f]. *)
Definition try_finally {A} (c : M A) (f : M unit) : M A := λ w,
  match c w with
  | (r, w') =>
      match f w' with
      | (Ok _, w'') => (r, w'')
      | (Raise e, w'') => (Raise e, w'')
      end
  end.

(** [for x in xs: acc = body acc x]. *)
Fixpoint for_each {A B} (body : B → A → M B) (xs : list A) (acc : B) : M B :=
  match xs with
  | [] => mret acc
  | x :: xs' => acc' ← body acc x; for_each body xs' acc'
  end.

(** ** Processes, files, threads *)

Definition pop {A} (dflt : A) (q : list A) : A * list A :=
  match q with
  | [] => (dflt, [])
  | x :: q' => (x, q')
  end.

Definition quiet : CompletedProcess := {| stdout := ""; stdout_json := None |}.

(** [run_ps(ps_script)]: [subprocess.run(["powershell", ...])]. *)
Definition run_ps (script : ps_script) : M CompletedProcess := λ w,
  let '(r, q) := pop (Ok quiet) (ps_out w) in
  (r, set_launched (launched w ++ [PowerShell script]) (set_ps_out q w)).

(** [subprocess.run([SETDPI_EXE, ...])], returning the captured stdout. *)
Definition run_setdpi (l : launch) : M string := λ w,
  let '(r, q) := pop (Ok "") (setdpi_out w) in
  (r, set_launched (launched w ++ [l]) (set_setdpi_out q w)).

(** One file operation: raises [OSError] when the next fault is set. *)
Definition fs_op : M unit := λ w,
  let '(bad, q) := pop false (fs_faults w) in
  (if bad then Raise OSError else Ok (), set_fs_faults q w).

(** [FileNotFoundError] (an [OSError]) when [MAP_FILE] does not exist. *)
Definition file_found : M unit := λ w,
  match map_file w with
  | Missing => (Raise OSError, w)
  | _ => (Ok (), w)
  end.

(** The document in [MAP_FILE], when its text is one. *)
Definition file_document : M json := λ w,
  match map_file w with
  | Holds j => (Ok j, w)
  | _ => (Raise JSONDecodeError, w)
  end.

Definition put_file (f : file) : M unit := λ w, (Ok (), set_map_file f w).

(** [threading.Thread(target=t, daemon=True).start()]. *)
Definition start_thread (t : task) : M unit := λ w,
  (Ok (), set_threads (threads w ++ [t]) w).

(** [json.loads(cp.stdout)]. *)
Definition json_loads (cp : CompletedProcess) : result json :=
  match stdout_json cp with
  | Some j => Ok j
  | None => Raise JSONDecodeError
  end.

Definition is_dict (v : json) : bool :=
  match v with JObj _ => true | _ => false end.

Definition nonempty (s : string) : bool := negb (String.eqb s "").

(** [s or None]. *)
Definition or_none (s : string) : option string :=
  if nonempty s then Some s else None.

Section Program.
Context `{PyBuiltins}.

(** ** Audio *)

Definition list_audio_devices : M json :=
  cp ← run_ps GetAudioDeviceList;
  try_except
    (data ← lift (if nonempty (stdout cp) then json_loads cp else Ok (JArr []));
     mret (if is_dict data then JArr [data] else py_or data (JArr [])))
    (λ _, mret (JArr [])).

(** The nested [is_type(d)]. *)
Definition is_type (device_type : string) (d : json) : result bool :=
  dev ← py_get d "Device" (JObj []);
  df ← py_get dev "DataFlow" JNull;
  Ok ((String.eqb device_type "playback" && py_eq_int df 0)
      || (String.eqb device_type "recording" && py_eq_int df 1)).

Fixpoint list_devices_loop (device_type : string) (ds : list json)
    : result (list (json * json)) :=
  match ds with
  | [] => Ok []
  | d :: ds' =>
      nm ← py_get d "Name" JNull;
      keep ← (if truthy nm then is_type device_type d else Ok false);
      item ← match keep with
             | true => n ← py_get d "Name" (JStr ""); i ← py_get d "ID" (JStr "");
                       Ok [(n, i)]
             | false => Ok []
             end;
      rest ← list_devices_loop device_type ds';
      Ok (item ++ rest)
  end.

Definition list_devices_by_type_from_raw (devices : json) (device_type : string)
    : result (list (json * json)) :=
  ds ← py_iter devices;
  list_devices_loop device_type ds.

Definition roles : list (string * string) :=
  [("output", "-Playback"); ("output_comm", "-PlaybackCommunication");
   ("input", "-Recording"); ("input_comm", "-RecordingCommunication")].

Definition get_default_ids : M (gmap string (option string)) :=
  for_each
    (λ out '(key, param),
       cp ← run_ps (GetAudioDeviceID param);
       mret (<[key := or_none (str_strip (stdout cp))]> out))
    roles ∅.

Definition set_default_device (device_id : json) (role : string) : M unit :=
  if negb (truthy device_id) then mret ()
  else
    let flag :=
      if String.eqb role "console" then "-DefaultOnly"
      else if String.eqb role "communications" then "-CommunicationOnly"
      else "" in
    _ ← run_ps (SetAudioDevice device_id flag); mret ().

(** ** Monitors and DPI *)

Definition set_dpi (percent : Z) (monitor : option Z) : M unit := λ w,
  if negb (setdpi_isfile w) then (Ok (), w)
  else
    let arg := match monitor with
               | Some m => if m =? 0 then None else Some m
               | None => None
               end in
    (_ ← run_setdpi (SetDpiSet percent arg); mret ()) w.

Definition get_dpi_value (monitor : Z) : M (option string) := λ w,
  if negb (setdpi_isfile w) then (Ok None, w)
  else
    (out ← run_setdpi (SetDpiValue monitor);
     mret (or_none (str_strip out))) w.

(** One turn of the loop in [list_monitors]. *)
Definition monitor_of_json (m : json) : result Monitor :=
  i ← py_get m "Index" (JInt 0);
  idx ← py_int (py_or i (JInt 0));
  n ← py_get m "Name" JNull;
  let name := py_or n (JStr ("Monitor #" +:+ pretty idx)) in
  a ← py_get m "Manufacturer" JNull;
  man ← py_strip (py_or a (JStr ""));
  p ← py_get m "Product" JNull;
  prod ← py_strip (py_or p (JStr ""));
  s ← py_get m "Serial" JNull;
  ser ← py_strip (py_or s (JStr "NOSN"));
  Ok {| mon_index := idx; mon_name := name;
        mon_fp := man +:+ "|" +:+ prod +:+ "|" +:+ ser |}.

Fixpoint monitors_loop (ms : list json) : result (list Monitor) :=
  match ms with
  | [] => Ok []
  | m :: ms' => x ← monitor_of_json m; xs ← monitors_loop ms'; Ok (x :: xs)
  end.

Definition fake_monitor (i : Z) : Monitor :=
  {| mon_index := i; mon_name := JStr ("Monitor #" +:+ pretty i);
     mon_fp := "FAKE||" +:+ pretty i |}.

Definition list_monitors : M (list Monitor) :=
  cp ← run_ps GetWmiMonitorID;
  try_except
    (lift
       (arr ← (if nonempty (stdout cp) then json_loads cp else Ok (JArr []));
        let arr := if is_dict arr then JArr [arr] else arr in
        ms ← py_iter (py_or arr (JArr []));
        monitors_loop ms))
    (λ _, mret [fake_monitor 1; fake_monitor 2]).

(** ** Mapping (fingerprint to SetDpi index) *)

Fixpoint load_items (kvs : list (string * json)) (acc : gmap string Z)
    : result (gmap string Z) :=
  match kvs with
  | [] => Ok acc
  | (k, v) :: rest => z ← py_int v; load_items rest (<[k := z]> acc)
  end.

(** [data.items()]: only [dict] has the method. *)
Definition py_items (data : json) : result (list (string * json)) :=
  match data with
  | JObj kvs => Ok kvs
  | _ => Raise AttributeError
  end.

(** [open(MAP_FILE, "r", encoding="utf-8")]. *)
Definition open_r : M unit :=
  _ ← fs_op; file_found.

(** [json.load(f)]. *)
Definition json_load : M json :=
  _ ← fs_op; file_document.

Definition load_map : M (gmap string Z) :=
  try_except
    (_ ← open_r;
     data ← json_load;
     lift (kvs ← py_items data; load_items kvs ∅))
    (λ _, mret ∅).

(** What [json.dump(m, f, ...)] writes for a [Dict[str, int]]. *)
Definition dump_map (m : gmap string Z) : json :=
  JObj (prod_map id JInt <$> map_to_list m).

(** [open(MAP_FILE, "w", encoding="utf-8")]: creates or truncates the file. *)
Definition open_w : M unit :=
  _ ← fs_op; put_file Unparsable.

(** [json.dump(m, f, ensure_ascii=False, indent=2)] and the closing of the
    file: a failure leaves whatever part of the text was written. *)
Definition json_dump (m : gmap string Z) : M unit :=
  _ ← fs_op; put_file (Holds (dump_map m)).

(** [print("Nie zapisano mapy monitorów:", e)]. *)
Definition print_not_saved (e : exn) : M unit := λ w,
  (Ok (), set_printed (printed w ++ [e]) w).

Definition save_map (m : gmap string Z) : M unit :=
  try_except (_ ← open_w; json_dump m) print_not_saved.

Definition refresh_state_async : M unit := start_thread RefreshWorker.

(** The [with state_lock:] block of [set_mapping]. *)
Definition install_mapping (fp : string) (idx : Z) : M (gmap string Z) := λ w,
  let new_map := <[fp := idx]> (idx_map (state w)) in
  (Ok new_map, set_state (with_idx_map new_map (state w)) w).

Definition set_mapping (fp : string) (idx : Z) : M unit :=
  new_map ← install_mapping fp idx;
  _ ← save_map new_map;
  refresh_state_async.

(** ** Collecting the state *)

(** [idx_map.get(m["fp"], m["index"])]. *)
Definition effective_index (idx_map : gmap string Z) (m : Monitor) : Z :=
  default (mon_index m) (idx_map !! mon_fp m).

(** The body of the DPI loop of [collect_state]. *)
Definition read_dpi (idx_map : gmap string Z) (dpi : gmap Z string) (m : Monitor)
    : M (gmap Z string) :=
  let idx := effective_index idx_map m in
  val ← get_dpi_value idx;
  mret (match val with
        | Some v => if nonempty v then <[idx := v]> dpi else dpi
        | None => dpi
        end).

(** The [with state_lock:] block of [collect_state]. *)
Definition publish (outs ins : list (json * json))
    (defs : gmap string (option string)) (mons : list Monitor)
    (idx_map : gmap string Z) (dpi : gmap Z string) : M unit := λ w,
  (Ok (), set_state {| outs := outs; ins := ins; defs := defs; mons := mons;
                       dpi := dpi; idx_map := idx_map;
                       last_update := clock w |} w).

Definition collect_state : M unit :=
  raw_devices ← list_audio_devices;
  outs ← lift (list_devices_by_type_from_raw raw_devices "playback");
  ins ← lift (list_devices_by_type_from_raw raw_devices "recording");
  defs ← get_default_ids;
  mons ← list_monitors;
  idx_map ← load_map;
  dpi ← for_each (read_dpi idx_map) mons ∅;
  publish outs ins defs mons idx_map dpi.

(** [tray_icon.update_menu()]: one update of the menu shown, which may
    raise. *)
Definition update_menu : M unit := λ w,
  let '(r, q) := pop None (update_menu_out w) in
  match r with
  | Some e => (Raise e, set_update_menu q (menu_updates w) w)
  | None => (Ok (), set_update_menu q (S (menu_updates w)) w)
  end.

(** [tray_icon.menu = Menu(_menu_items_dynamic)]: the setter of pystray's
    [Icon.menu] stores the menu and calls [update_menu()] itself. *)
Definition set_menu : M unit := update_menu.

(** [if tray_icon: tray_icon.menu = ...; tray_icon.update_menu()] in
    [_refresh_worker]: the menu is updated by the assignment and once more
    by the explicit call. *)
Definition refresh_menu : M unit := λ w,
  if tray_icon w then (_ ← set_menu; update_menu) w else (Ok (), w).

Definition _refresh_worker : M unit :=
  try_except
    (_ ← collect_state; refresh_menu)
    (λ _, mret ()).

(** ** Menu handlers *)

(** The nested [work] of [make_set_dpi_handler]. *)
Definition set_dpi_work (pct idx : Z) : M unit :=
  try_finally (set_dpi pct (Some idx)) refresh_state_async.

Definition make_set_dpi_handler (pct idx : Z) : M unit :=
  start_thread (SetDpiWork pct idx).

(** The nested [work] of [make_set_audio_handler]. *)
Definition set_audio_work (device_id : json) (role : string) : M unit :=
  try_finally (set_default_device device_id role) refresh_state_async.

Definition make_set_audio_handler (device_id : json) (role : string) : M unit :=
  start_thread (SetAudioWork device_id role).



End Program.

(** ** The index-mapping submenu *)

Definition MAX_IDX_CHOICES : Z := 8.

(** What a menu entry does when clicked. *)
Inductive action :=
  | MapChoice (fp : string) (idx : Z).

(** [t(key, **kwargs)]: a translated line, kept as its key and arguments. *)
Record Label := {
  key : string;
  kwargs : list (string * json);
}.

Record MenuItem := {
  text : string;
  on_click : action;
}.

Record SubMenu := {
  title : Label;
  items : list MenuItem;
}.

(** A Python [str] is held as its UTF-8 encoding, while [len] and slices
    count code points. A code point is a byte that is not a continuation
    byte (10xxxxxx) together with the continuation bytes that follow it. *)
Definition is_continuation (c : ascii) : bool :=
  let n := N_of_ascii c in ((128 <=? n) && (n <? 192))%N.

Definition starts_continuation (s : string) : bool :=
  match s with
  | String c _ => is_continuation c
  | EmptyString => false
  end.

(** The characters of a [str], each as the bytes that encode it. *)
Fixpoint code_points (s : string) : list string :=
  match s with
  | EmptyString => []
  | String c s' =>
      match code_points s' with
      | ch :: rest =>
          if starts_continuation ch then String c ch :: rest
          else String c EmptyString :: ch :: rest
      | [] => [String c EmptyString]
      end
  end.

(** [len(s)]. *)
Definition py_len (s : string) : nat := length (code_points s).

(** The [str] made of the given characters. *)
Definition str_join (chars : list string) : string :=
  foldr String.append EmptyString chars.

(** [fp[-6:] if len(fp) > 6 else fp]. *)
Definition _short_fp (fp : string) : string :=
  if (6 <? py_len fp)%nat
  then str_join (drop (py_len fp - 6) (code_points fp))
  else fp.

(** The [for n in range(1, max_choice + 1)] loop. *)
Definition map_choices (max_choice current : Z) (fp : string) : list MenuItem :=
  (λ n, {| text := pretty n +:+ " " +:+ (if n =? current then "✓" else "");
           on_click := MapChoice fp n |})
  <$> seqZ 1 max_choice.

(** The [map_menu] built by [_menu_items_dynamic] from its copies of
    [state["mons"]] and [state["idx_map"]]. *)
Definition map_menu (mons : list Monitor) (idx_map : gmap string Z) : list SubMenu :=
  let max_choice := Z.max MAX_IDX_CHOICES (Z.of_nat (length mons)) in
  (λ m,
     let current := default (mon_index m) (idx_map !! mon_fp m) in
     {| title := {| key := "index_map_item";
                    kwargs := [("name", mon_name m); ("current", JInt current);
                               ("fp", JStr (_short_fp (mon_fp m)))] |};
        items := map_choices max_choice current (mon_fp m) |})
  <$> mons.


(** ** Built-ins on ASCII text *)

Definition ascii_space (a : ascii) : bool :=
  let n := N_of_ascii a in
  ((9 <=? n) && (n <=? 13) || (28 <=? n) && (n <=? 32))%N.

Fixpoint lstrip (cs : list ascii) : list ascii :=
  match cs with
  | [] => []
  | a :: rest => if ascii_space a then lstrip rest else cs
  end.

Definition strip_chars (cs : list ascii) : list ascii :=
  rev (lstrip (rev (lstrip cs))).

Definition ascii_strip (s : string) : string :=
  String.string_of_list_ascii (strip_chars (String.list_ascii_of_string s)).

Definition digit_value (a : ascii) : option Z :=
  let n := N_of_ascii a in
  if ((48 <=? n) && (n <=? 57))%N then Some (Z.of_N n - 48) else None.

(** Decimal digits, single underscores allowed between two digits. *)
Fixpoint digits (cs : list ascii) (acc : Z) (after_digit : bool) : option Z :=
  match cs with
  | [] => if after_digit then Some acc else None
  | a :: rest =>
      match digit_value a with
      | Some d => digits rest (10 * acc + d) true
      | None =>
          if Ascii.eqb a "_" && after_digit then digits rest acc false else None
      end
  end.

Definition ascii_int (s : string) : option Z :=
  match strip_chars (String.list_ascii_of_string s) with
  | a :: rest =>
      if Ascii.eqb a "-" then Z.opp <$> digits rest 0 false
      else if Ascii.eqb a "+" then digits rest 0 false
      else digits (a :: rest) 0 false
  | [] => None
  end.

(** [str.strip] and [int] on strings of ASCII characters. *)
Definition ascii_builtins : PyBuiltins :=
  {| str_strip := ascii_strip; int_of_str := ascii_int |}.

(** ** Sample inputs *)

(** The process right after import: nothing cached, no mapping file,
    SetDpi.exe not installed. *)
Definition world0 : World :=
  {| ps_out := []; setdpi_isfile := false; setdpi_out := []; fs_faults := [];
     update_menu_out := []; clock := 0; tray_icon := false;
     map_file := Missing; state := state0; threads := []; launched := [];
     printed := []; menu_updates := 0 |}.


(** ** Auxiliary notions used in the statements *)

(** The next [n] file operations succeed. *)
Definition storage_ok (n : nat) (w : World) : Prop :=
  Forall (λ b, b = false) (take n (fs_faults w)).

#[global] Instance storage_ok_dec n w : Decision (storage_ok n w).
Proof. unfold storage_ok. apply _. Defined.

(** What [load_map] returns, as a function of the file and the two coming
    faults. *)
Definition loaded `{PyBuiltins} (w : World) : gmap string Z :=
  match fs_faults w, map_file w with
  | true :: _, _ => ∅
  | _ :: true :: _, _ => ∅
  | _, Holds (JObj kvs) =>
      match load_items kvs ∅ with Ok m => m | Raise _ => ∅ end
  | _, _ => ∅
  end.

(** A process whose cache and mapping file both hold one mapping. *)
Definition table_b : gmap string Z := {["GSM|5B09|NOSN" := 2]}.

Definition world_mapped : World :=
  set_map_file (Holds (dump_map table_b))
    (set_state (with_idx_map table_b state0) world0).

(** A process whose mapping file holds an entry the cache does not have:
    the file was edited by hand, or the first refresh pass has not completed
    yet. *)
Definition table_a : gmap string Z := {["DEL|A0F1|X7" := 7]}.

Definition world_stale_cache : World :=
  set_map_file (Holds (dump_map table_a)) world0.


(** A mapping file with one good entry and one that is not a number. *)
Definition world_mixed_file : World :=
  set_map_file (Holds (JObj [("GSM|5B09|NOSN", JInt 2); ("DEL|A0F1|X7", JStr "two")]))
    world0.

(** The world after the PowerShell scripts [ls] have run, in that order. *)
Definition after_ps (ls : list ps_script) (w : World) : World :=
  set_launched (launched w ++ (PowerShell <$> ls))
    (set_ps_out (drop (length ls) (ps_out w)) w).

(** What the [i]-th call of [get_dpi_value] returns in a pass that starts in
    [w] ([i] counted from 0). *)
Definition dpi_reading `{PyBuiltins} (w : World) (i : nat) : option string :=
  if setdpi_isfile w
  then match default (Ok "") (setdpi_out w !! i) with
       | Ok out => or_none (str_strip out)
       | Raise _ => None
       end
  else None.

(** The scripts of one refresh pass. *)
Definition pass_scripts : list ps_script :=
  [GetAudioDeviceList] ++ (GetAudioDeviceID <$> roles.*2) ++ [GetWmiMonitorID].

(** A process that printed the JSON text of [j] (the text itself elided). *)
Definition printed_json (j : json) : CompletedProcess :=
  {| stdout := "(JSON text)"; stdout_json := Some j |}.

Definition printed_text (s : string) : CompletedProcess :=
  {| stdout := s; stdout_json := None |}.

Definition monitor_a : json :=
  JObj [("Index", JInt 1); ("Name", JStr "DELL U2720Q");
        ("Manufacturer", JStr "DEL"); ("Product", JStr "A0F1");
        ("Serial", JStr "X7")].

Definition monitor_b : json :=
  JObj [("Index", JInt 2); ("Name", JStr "LG ULTRAGEAR");
        ("Manufacturer", JStr "GSM"); ("Product", JStr "5B09");
        ("Serial", JStr "NOSN")].

(** Two monitors, the first one mapped to SetDpi index 7 in the mapping
    file; no audio module output; SetDpi.exe prints the scale of index 7 and
    prints nothing for index 2. *)
Definition world_two_monitors : World :=
  {| ps_out := [Ok quiet; Ok quiet; Ok quiet; Ok quiet; Ok quiet;
                Ok (printed_json (JArr [monitor_a; monitor_b]))];
     setdpi_isfile := true;
     setdpi_out := [Ok "125"; Ok ""];
     fs_faults := []; update_menu_out := []; clock := 1700000000;
     tray_icon := true;
     map_file := Holds (JObj [("DEL|A0F1|X7", JInt 7)]);
     state := state0; threads := []; launched := []; printed := [];
     menu_updates := 0 |}.

(** A computation that never touches the cached [state]. *)
Definition keeps_state {A} (c : M A) : Prop := ∀ w, state (c w).2 = state w.

(** A computation that leaves the cached [state] alone whenever it raises. *)
Definition raise_keeps_state {A} (c : M A) : Prop :=
  ∀ w e, (c w).1 = Raise e → state (c w).2 = state w.

(** The devices [list_audio_devices] makes of a finished PowerShell run. *)
Definition parse_audio (cp : CompletedProcess) : json :=
  match (if nonempty (stdout cp) then json_loads cp else Ok (JArr [])) with
  | Ok data => if is_dict data then JArr [data] else py_or data (JArr [])
  | Raise _ => JArr []
  end.

(** An endpoint whose nested [Device] object came out as [null]. *)
Definition speaker_without_device : json :=
  JObj [("Name", JStr "Speakers"); ("ID", JStr "{0.0.0.00000000}.{a1}");
        ("Device", JNull)].

Definition speaker : json :=
  JObj [("Name", JStr "Speakers"); ("ID", JStr "{0.0.0.00000000}.{a1}");
        ("Device", JObj [("DataFlow", JInt 0)])].

(** [world_two_monitors] with an audio list of the given content. *)
Definition world_audio (cp : CompletedProcess) : World :=
  set_ps_out (Ok cp :: tail (ps_out world_two_monitors)) world_two_monitors.

(** SetDpi.exe is installed but cannot be run. *)
Definition world_setdpi_broken : World :=
  {| ps_out := []; setdpi_isfile := true; setdpi_out := [Raise OSError];
     fs_faults := []; update_menu_out := []; clock := 0; tray_icon := true;
     map_file := Missing; state := state0; threads := []; launched := [];
     printed := []; menu_updates := 0 |}.

(** PowerShell cannot be started. *)
Definition world_ps_broken : World := set_ps_out [Raise OSError] world0.

(** The process after one refresh pass over [world_two_monitors]. *)
Definition world_after_pass : World :=
  (collect_state (H:=ascii_builtins) world_two_monitors).2.



(** ** Threads sharing [state] under [state_lock] *)

(** The keys of [state]. *)
Inductive field :=
  | Fouts | Fins | Fdefs | Fmons | Fidx_map | Fdpi | Flast_update.

(** One assignment [dst[f] = src[f]]. *)
Definition copy_field (f : field) (src dst : State) : State :=
  match f with
  | Fouts =>
      {| outs := outs src; ins := ins dst; defs := defs dst; mons := mons dst;
         dpi := dpi dst; idx_map := idx_map dst; last_update := last_update dst |}
  | Fins =>
      {| outs := outs dst; ins := ins src; defs := defs dst; mons := mons dst;
         dpi := dpi dst; idx_map := idx_map dst; last_update := last_update dst |}
  | Fdefs =>
      {| outs := outs dst; ins := ins dst; defs := defs src; mons := mons dst;
         dpi := dpi dst; idx_map := idx_map dst; last_update := last_update dst |}
  | Fmons =>
      {| outs := outs dst; ins := ins dst; defs := defs dst; mons := mons src;
         dpi := dpi dst; idx_map := idx_map dst; last_update := last_update dst |}
  | Fidx_map =>
      {| outs := outs dst; ins := ins dst; defs := defs dst; mons := mons dst;
         dpi := dpi dst; idx_map := idx_map src; last_update := last_update dst |}
  | Fdpi =>
      {| outs := outs dst; ins := ins dst; defs := defs dst; mons := mons dst;
         dpi := dpi src; idx_map := idx_map dst; last_update := last_update dst |}
  | Flast_update =>
      {| outs := outs dst; ins := ins dst; defs := defs dst; mons := mons dst;
         dpi := dpi dst; idx_map := idx_map dst; last_update := last_update src |}
  end.

Definition same_field (f : field) (a b : State) : Prop :=
  match f with
  | Fouts => outs a = outs b
  | Fins => ins a = ins b
  | Fdefs => defs a = defs b
  | Fmons => mons a = mons b
  | Fidx_map => idx_map a = idx_map b
  | Fdpi => dpi a = dpi b
  | Flast_update => last_update a = last_update b
  end.

(** The assignments of [collect_state] inside [with state_lock:], in order. *)
Definition writer_program : list field :=
  [Fouts; Fins; Fdefs; Fmons; Fidx_map; Fdpi; Flast_update].

(** The copies [_menu_items_dynamic] takes inside [with state_lock:], in
    order. *)
Definition reader_program : list field :=
  [Fouts; Fins; Fdefs; Fmons; Fidx_map; Fdpi; Flast_update].

Inductive owner :=
  | Writer
  | Reader (i : nat).

(** Where a thread stands: before its [with state_lock:] block, inside it
    with [k] statements done, or past it. *)
Inductive pc :=
  | Outside
  | Inside (k : nat)
  | Past.

(** The shared [state], the holder of [state_lock], the refresh thread, and
    the menu threads, each with its local copies. *)
Record Config := {
  shared : State;
  lock : option owner;
  writer : pc;
  readers : list (pc * State);
}.

(** One statement of one thread. The refresh thread publishes [new]. A
    thread enters its block only when the lock is free; the assignments
    themselves do not look at the lock. *)
Inductive step (new : State) : Config → Config → Prop :=
  | writer_acquire c :
      writer c = Outside → lock c = None →
      step new c {| shared := shared c; lock := Some Writer;
                    writer := Inside 0; readers := readers c |}
  | writer_assign c k f :
      writer c = Inside k → writer_program !! k = Some f →
      step new c {| shared := copy_field f new (shared c); lock := lock c;
                    writer := Inside (S k); readers := readers c |}
  | writer_release c :
      writer c = Inside (length writer_program) →
      step new c {| shared := shared c; lock := None;
                    writer := Past; readers := readers c |}
  | reader_acquire c i l :
      readers c !! i = Some (Outside, l) → lock c = None →
      step new c {| shared := shared c; lock := Some (Reader i);
                    writer := writer c;
                    readers := <[i := (Inside 0, l)]> (readers c) |}
  | reader_copy c i k l f :
      readers c !! i = Some (Inside k, l) → reader_program !! k = Some f →
      step new c {| shared := shared c; lock := lock c; writer := writer c;
                    readers := <[i := (Inside (S k), copy_field f (shared c) l)]>
                                 (readers c) |}
  | reader_release c i l :
      readers c !! i = Some (Inside (length reader_program), l) →
      step new c {| shared := shared c; lock := None; writer := writer c;
                    readers := <[i := (Past, l)]> (readers c) |}.

(** All threads before their blocks, the cache holding [old]. *)
Definition start (old : State) (locals : list State) : Config :=
  {| shared := old; lock := None; writer := Outside;
     readers := (λ l, (Outside, l)) <$> locals |}.

(** The cache after the first [k] assignments of the refresh thread. *)
Definition written (k : nat) (old new : State) : State :=
  foldl (λ s f, copy_field f new s) old (take k writer_program).

Definition writer_inv (old new : State) (c : Config) : Prop :=
  match writer c with
  | Outside => shared c = old ∧ lock c ≠ Some Writer
  | Inside k =>
      lock c = Some Writer ∧ (k ≤ length writer_program)%nat
      ∧ shared c = written k old new
  | Past => shared c = new ∧ lock c ≠ Some Writer
  end.

Definition reader_inv (old new : State) (c : Config) (i : nat) (r : pc * State)
    : Prop :=
  match r.1 with
  | Outside => lock c ≠ Some (Reader i)
  | Inside k =>
      lock c = Some (Reader i) ∧ (k ≤ length reader_program)%nat
      ∧ Forall (λ f, same_field f r.2 (shared c)) (take k reader_program)
  | Past => lock c ≠ Some (Reader i) ∧ (r.2 = old ∨ r.2 = new)
  end.

Definition inv (old new : State) (c : Config) : Prop :=
  writer_inv old new c
  ∧ ∀ i r, readers c !! i = Some r → reader_inv old new c i r.

(** A snapshot different from [state0] in every field. *)
Definition state1 : State :=
  {| outs := [(JStr "Speakers", JStr "{0.0.0.00000000}.{a1}")];
     ins := [(JStr "Microphone", JStr "{0.0.1.00000000}.{b2}")];
     defs := {["output" := Some "{0.0.0.00000000}.{a1}"]};
     mons := [fake_monitor 1];
     dpi := {[1 := "150"]};
     idx_map := {["FAKE||1" := 1]};
     last_update := 1700000000 |}.

(** [world_two_monitors] with a SetDpi.exe that cannot be run. *)
Definition world_setdpi_unrunnable : World :=
  set_setdpi_out [Raise OSError] world_two_monitors.

(** ** Further notions used in the statements *)

(** A computation that leaves the part [proj] of the world as it was. *)
Definition preserves {A X} (proj : World → X) (c : M A) : Prop :=
  ∀ w, proj (c w).2 = proj w.

(** The parts of the world a computation that only works on the cache and
    the mapping file leaves alone: nothing is asked of PowerShell or
    SetDpi.exe and the tray menu is not rebuilt. *)
Definition no_process (w w' : World) : Prop :=
  launched w' = launched w ∧ ps_out w' = ps_out w
  ∧ setdpi_out w' = setdpi_out w ∧ menu_updates w' = menu_updates w.

(** A microphone, as [Get-AudioDevice -List] prints one. *)
Definition microphone : json :=
  JObj [("Name", JStr "Microphone"); ("ID", JStr "{0.0.1.00000000}.{b2}");
        ("Device", JObj [("DataFlow", JInt 1)])].

(** SetDpi.exe installed and answering. *)
Definition world_setdpi : World :=
  {| ps_out := []; setdpi_isfile := true; setdpi_out := [Ok " 150 "];
     fs_faults := []; update_menu_out := []; clock := 0; tray_icon := true;
     map_file := Missing; state := state0; threads := []; launched := [];
     printed := []; menu_updates := 0 |}.

(** [monitor_a] as a later enumeration may report it: another index, no
    name. *)
Definition monitor_a_moved : json :=
  JObj [("Index", JInt 3); ("Manufacturer", JStr "DEL");
        ("Product", JStr "A0F1"); ("Serial", JStr "X7")].

(** A monitor entry whose index is not a number. *)
Definition monitor_bad_index : json :=
  JObj [("Index", JStr "first"); ("Name", JStr "BenQ"); ("Manufacturer", JStr "BNQ");
        ("Product", JStr "7F3A"); ("Serial", JStr "K1")].

(** A pass-ready process whose monitor query printed the given output. *)
Definition world_monitors (cp : CompletedProcess) : World :=
  set_ps_out [Ok cp] world0.

(** A part of the world that running processes and file operations do
    not touch by themselves. *)
Definition untouched_by_queries {X} (proj : World → X) : Prop :=
  (∀ l w, proj (set_launched l w) = proj w)
  ∧ (∀ q w, proj (set_ps_out q w) = proj w)
  ∧ (∀ q w, proj (set_setdpi_out q w) = proj w)
  ∧ (∀ q w, proj (set_fs_faults q w) = proj w).

(** [world_mapped] when the mapping file cannot be opened for writing. *)
Definition world_read_only : World := set_fs_faults [true] world_mapped.

(** The value of a result, or [dflt] when it is an exception. *)
Definition ok_or {A} (dflt : A) (r : result A) : A :=
  match r with Ok a => a | Raise _ => dflt end.

(** The world a refresh pass leaves. *)
Definition pass_from `{PyBuiltins} (w : World) : World := (collect_state w).2.

(** ** The other parts of the menu built from the cache *)

Definition DPI_CHOICES : list Z := [100; 125; 150; 175; 200; 225; 250; 300].

(** The first loop over [mons] of [_menu_items_dynamic]: one line per
    monitor, [t("monitor_line", name=.., idx=.., fp=.., val=..)] with
    [val = dpi.get(idx, "?")]. *)
Definition monitor_lines (mons : list Monitor) (idx_map : gmap string Z)
    (dpi : gmap Z string) : list Label :=
  (λ m,
     let idx := default (mon_index m) (idx_map !! mon_fp m) in
     let val := default "?" (dpi !! idx) in
     {| key := "monitor_line";
        kwargs := [("name", mon_name m); ("idx", JInt idx);
                   ("fp", JStr (_short_fp (mon_fp m))); ("val", JStr val)] |})
  <$> mons.

(** [MenuItem(f"{pct}%", make_set_dpi_handler(pct, idx))]. *)
Record DpiItem := {
  dpi_text : string;
  dpi_pct : Z;
  dpi_idx : Z;
}.

Record DpiMenu := {
  dpi_title : Label;
  dpi_items : list DpiItem;
}.

(** The second loop over [mons]: the DPI presets of each monitor. *)
Definition dpi_menus (mons : list Monitor) (idx_map : gmap string Z)
    : list DpiMenu :=
  (λ m,
     let idx := default (mon_index m) (idx_map !! mon_fp m) in
     {| dpi_title := {| key := "set_dpi_for";
                        kwargs := [("name", mon_name m); ("idx", JInt idx)] |};
        dpi_items := (λ pct, {| dpi_text := pretty pct +:+ "%";
                                dpi_pct := pct; dpi_idx := idx |})
                     <$> DPI_CHOICES |})
  <$> mons.

(** [MenuItem(n, make_set_audio_handler(i, role))]. *)
Record AudioItem := {
  audio_text : json;
  audio_id : json;
  audio_role : string;
}.

Record AudioMenu := {
  audio_title : string;
  audio_items : list AudioItem;
}.

Definition audio_items_for (role : string) (pool : list (json * json))
    : list AudioItem :=
  (λ '(n, i), {| audio_text := n; audio_id := i; audio_role := role |})
  <$> pool.

(** The quick audio submenus: [if outs: ...] and [if ins: ...]. *)
Definition audio_menus (outs ins : list (json * json)) : list AudioMenu :=
  (match outs with
   | [] => []
   | _ => [ {| audio_title := "set_speakers_media";
               audio_items := audio_items_for "console" outs |};
            {| audio_title := "set_speakers_calls";
               audio_items := audio_items_for "communications" outs |} ]
   end)
  ++
  (match ins with
   | [] => []
   | _ => [ {| audio_title := "set_mic_media";
               audio_items := audio_items_for "console" ins |};
            {| audio_title := "set_mic_calls";
               audio_items := audio_items_for "communications" ins |} ]
   end).

(** The work started by clicking entries of these submenus. *)
Definition click_dpi (item : DpiItem) : M unit :=
  make_set_dpi_handler (dpi_pct item) (dpi_idx item).

Definition click_audio (item : AudioItem) : M unit :=
  make_set_audio_handler (audio_id item) (audio_role item).

(** The entry of the speakers (media) submenu for the endpoint of
    [state1]. *)
Definition speakers_media_menu : AudioMenu :=
  {| audio_title := "set_speakers_media";
     audio_items := audio_items_for "console" (outs state1) |}.

Definition speakers_media_item : AudioItem :=
  {| audio_text := JStr "Speakers"; audio_id := JStr "{0.0.0.00000000}.{a1}";
     audio_role := "console" |}.

(** Whoever holds [state_lock] is inside its block. *)
Definition lock_inv (c : Config) : Prop :=
  match lock c with
  | None => True
  | Some Writer => ∃ k, writer c = Inside k
  | Some (Reader i) => ∃ k l, readers c !! i = Some (Inside k, l)
  end.

(** Every thread has left its block. *)
Definition all_past (c : Config) : Prop :=
  writer c = Past ∧ ∀ i r, readers c !! i = Some r → r.1 = Past.

#[global] Instance pc_eq_dec : EqDecision pc.
Proof. solve_decision. Defined.

(** ** The standard audio profile *)

(** The [mappings] of [set_standard_devices]. *)
Definition standard_profile : list (string * string) :=
  [("Voicemeeter AUX Input (VB-Audio Voicemeeter VAIO)", "communications");
   ("Voicemeeter Input (VB-Audio Voicemeeter VAIO)", "console");
   ("CABLE Output (VB-Audio Virtual Cable)", "console");
   ("CABLE Output (VB-Audio Virtual Cable)", "communications")].

Section StandardProfile.
Context `{PyBuiltins}.

(** The inner loop of [set_standard_devices]: the first device whose
    stripped name is [target_name] is made the default, and the loop breaks. *)
Fixpoint set_first_named (target_name role : string) (ds : list json) : M unit :=
  match ds with
  | [] => mret ()
  | d :: ds' =>
      nm ← lift (n ← py_get d "Name" JNull; py_strip (py_or n (JStr "")));
      if String.eqb nm target_name
      then device_id ← lift (py_get d "ID" JNull);
           set_default_device device_id role
      else set_first_named target_name role ds'
  end.

Definition set_standard_devices : M unit :=
  devices ← list_audio_devices;
  _ ← for_each
        (λ (_ : unit) '(target_name, role),
           ds ← lift (py_iter devices);
           set_first_named target_name role ds)
        standard_profile ();
  refresh_state_async.

End StandardProfile.

(** A [Set-AudioDevice] run. *)
Definition is_set_audio (x : launch) : bool :=
  match x with
  | PowerShell (SetAudioDevice _ _) => true
  | _ => false
  end.

(** A computation that starts at most [n] processes, all of them
    [Set-AudioDevice] runs. *)
Definition launches_at_most {A} (n : nat) (c : M A) : Prop :=
  ∀ w, ∃ l, launched (c w).2 = launched w ++ l ∧ (length l ≤ n)%nat
            ∧ forallb is_set_audio l = true.

(** Voicemeeter and the virtual cable, as the audio list prints them. *)
Definition voicemeeter_devices : json :=
  JArr [JObj [("Name", JStr "Voicemeeter Input (VB-Audio Voicemeeter VAIO)");
              ("ID", JStr "{0.0.0.00000000}.{v1}");
              ("Device", JObj [("DataFlow", JInt 0)])];
        JObj [("Name", JStr "CABLE Output (VB-Audio Virtual Cable)");
              ("ID", JStr "{0.0.1.00000000}.{c1}");
              ("Device", JObj [("DataFlow", JInt 1)])]].

(** * Properties *)

Example ascii_strip_sample : ascii_strip "  125
" = "125".
Proof. reflexivity. Qed.

Example ascii_int_samples :
  ascii_int " 12 " = Some 12 ∧ ascii_int "-7" = Some (-7)
  ∧ ascii_int "1_000" = Some 1000 ∧ ascii_int "1__0" = None
  ∧ ascii_int "" = None ∧ ascii_int "abc" = None.
Proof. by vm_compute. Qed.

(** ** Running computations *)

Lemma run_bind {A B} (c : M A) (f : A → M B) (w : World) :
  (c ≫= f) w =
  match c w with
  | (Ok a, w') => f a w'
  | (Raise e, w') => (Raise e, w')
  end.
Proof. reflexivity. Qed.

Lemma run_ret {A} (a : A) (w : World) : (mret a : M A) w = (Ok a, w).
Proof. reflexivity. Qed.

Lemma fs_op_run (w : World) :
  fs_op w =
  (if hd false (fs_faults w) then Raise OSError else Ok (),
   set_fs_faults (tail (fs_faults w)) w).
Proof. unfold fs_op. by destruct (fs_faults w). Qed.

Lemma storage_ok_S n w :
  storage_ok (S n) w →
  fs_op w = (Ok (), set_fs_faults (tail (fs_faults w)) w)
  ∧ storage_ok n (set_fs_faults (tail (fs_faults w)) w).
Proof.
  unfold storage_ok. rewrite fs_op_run.
  destruct (fs_faults w) as [|b q]; simpl.
  - split; [done|]. by rewrite take_nil.
  - intros Hq. apply Forall_cons in Hq as [-> Hq]. done.
Qed.

(** ** The mapping store *)

Section MappingStore.
Context `{PyBuiltins}.

Lemma load_items_raise kvs acc k v e :
  (k, v) ∈ kvs → py_int v = Raise e → ∃ e', load_items kvs acc = Raise e'.
Proof.
  intros Hin Hv. revert acc.
  induction kvs as [|[k' v'] kvs IH]; intros acc; [by apply elem_of_nil in Hin|].
  apply elem_of_cons in Hin as [Heq|Hin]; simpl.
  - injection Heq as <- <-. rewrite Hv. by eexists.
  - destruct (py_int v') as [z|e0]; simpl; [by apply IH | by eexists].
Qed.

Lemma load_items_ok kvs acc m :
  load_items kvs acc = Ok m →
  (∀ k z, m !! k = Some z →
     acc !! k = Some z ∨ ∃ v, (k, v) ∈ kvs ∧ py_int v = Ok z)
  ∧ (∀ k, (k ∈ kvs.*1 ∨ is_Some (acc !! k)) → is_Some (m !! k)).
Proof.
  revert acc. induction kvs as [|[k' v'] kvs IH]; intros acc; simpl.
  - intros [= <-]. split; [by left|]. intros k [Hk|Hk]; [|done].
    by apply elem_of_nil in Hk.
  - destruct (py_int v') as [z'|e0] eqn:Hv; simpl; [|done].
    intros Hm. apply IH in Hm as [Hm1 Hm2]. split.
    + intros k z Hk. apply Hm1 in Hk as [Hk|(v & Hin & Hz)].
      * destruct (decide (k' = k)) as [->|Hne].
        -- rewrite lookup_insert_eq in Hk. injection Hk as ->.
           right. exists v'. split; [left|done].
        -- rewrite lookup_insert_ne in Hk by done. by left.
      * right. exists v. split; [by right|done].
    + intros k Hk. apply Hm2. destruct Hk as [Hk|Hk].
      * apply elem_of_cons in Hk as [->|Hk]; [|by left].
        right. rewrite lookup_insert_eq. by eexists.
      * right. destruct (decide (k' = k)) as [->|Hne].
        -- rewrite lookup_insert_eq. by eexists.
        -- by rewrite lookup_insert_ne.
Qed.

Lemma load_items_all kvs acc :
  Forall (λ kv, ∃ z, py_int kv.2 = Ok z) kvs → ∃ m, load_items kvs acc = Ok m.
Proof.
  intros Hall. revert acc. induction Hall as [|[k v] kvs [z Hz] _ IH]; intros acc.
  - by eexists.
  - simpl in *. rewrite Hz. simpl. apply IH.
Qed.

Lemma load_map_run (w : World) : (load_map w).1 = Ok (loaded w).
Proof.
  unfold load_map, loaded, try_except, open_r, json_load.
  rewrite !run_bind, fs_op_run.
  destruct (fs_faults w) as [|[] q] eqn:Hq; simpl; try done.
  - unfold file_found; simpl. destruct (map_file w) as [| |j] eqn:Hf; simpl; try done.
    + rewrite !run_bind, fs_op_run; simpl. unfold file_document; simpl.
      by rewrite Hf.
    + rewrite !run_bind, fs_op_run; simpl. unfold file_document; simpl.
      rewrite Hf. unfold lift. destruct j; simpl; try done.
      by destruct (load_items kvs ∅).
  - unfold file_found; simpl. destruct (map_file w) as [| |j] eqn:Hf; simpl.
    + by destruct q as [|[] ?].
    + rewrite !run_bind, fs_op_run; simpl. unfold file_document; simpl.
      rewrite Hf. by destruct q as [|[] ?].
    + rewrite !run_bind, fs_op_run; simpl. unfold file_document; simpl.
      rewrite Hf. unfold lift.
      destruct q as [|[] ?]; simpl; try done.
      * destruct j; simpl; try done. by destruct (load_items kvs ∅).
      * destruct j; simpl; try done. by destruct (load_items kvs ∅).
Qed.

(** Reading back what [json.dump] wrote. *)
Lemma load_items_dump (l : list (string * Z)) (acc : gmap string Z) :
  load_items (prod_map id JInt <$> l) acc
  = Ok (foldl (λ a kv, <[kv.1 := kv.2]> a) acc l).
Proof.
  revert acc. induction l as [|[k z] l IH]; intros acc; [done|].
  simpl. apply IH.
Qed.

Lemma foldl_insert_lookup (l : list (string * Z)) (acc : gmap string Z) k :
  NoDup l.*1 →
  foldl (λ a kv, <[kv.1 := kv.2]> a) acc l !! k
  = (list_to_map l : gmap string Z) !! k ∪ acc !! k.
Proof.
  revert acc. induction l as [|[k' z'] l IH]; intros acc Hnd.
  - simpl. rewrite lookup_empty. by destruct (acc !! k).
  - rewrite fmap_cons in Hnd. apply NoDup_cons in Hnd as [Hk' Hnd].
    cbn [foldl]. rewrite IH by done. cbn [list_to_map foldr fst snd uncurry].
    destruct (decide (k' = k)) as [->|Hne].
    + rewrite !lookup_insert_eq.
      destruct (list_to_map l !! k) as [z|] eqn:Hl; [|by destruct (acc !! k)].
      apply elem_of_list_to_map_2 in Hl.
      apply (list_elem_of_fmap_2 fst) in Hl. done.
    + by rewrite !lookup_insert_ne.
Qed.

Lemma load_items_dump_map (m : gmap string Z) :
  load_items (prod_map id JInt <$> map_to_list m) ∅ = Ok m.
Proof.
  rewrite load_items_dump. f_equal. apply map_eq. intros k.
  rewrite foldl_insert_lookup by apply NoDup_fst_map_to_list.
  rewrite list_to_map_to_list, lookup_empty. by destruct (m !! k).
Qed.

End MappingStore.

Lemma save_map_ok (m : gmap string Z) (w : World) : (save_map m w).1 = Ok ().
Proof.
  unfold save_map, try_except, open_w, json_dump.
  rewrite !run_bind, fs_op_run.
  destruct (hd false (fs_faults w)); simpl; [done|].
  rewrite !run_bind, fs_op_run; simpl.
  by destruct (hd false (tail (fs_faults w))).
Qed.

Lemma save_map_file (m : gmap string Z) (w : World) :
  map_file (save_map m w).2 =
  if hd false (fs_faults w) then map_file w
  else if hd false (tail (fs_faults w)) then Unparsable
  else Holds (dump_map m).
Proof.
  unfold save_map, try_except, open_w, json_dump.
  rewrite !run_bind, fs_op_run.
  destruct (hd false (fs_faults w)); simpl; [done|].
  rewrite !run_bind, fs_op_run; simpl.
  by destruct (hd false (tail (fs_faults w))).
Qed.


Lemma save_map_faults (m : gmap string Z) (w : World) :
  fs_faults (save_map m w).2 =
  if hd false (fs_faults w) then tail (fs_faults w)
  else tail (tail (fs_faults w)).
Proof.
  unfold save_map, try_except, open_w, json_dump.
  rewrite !run_bind, fs_op_run.
  destruct (hd false (fs_faults w)); simpl; [done|].
  rewrite !run_bind, fs_op_run; simpl.
  by destruct (hd false (tail (fs_faults w))).
Qed.

Lemma save_map_frame (m : gmap string Z) (w : World) :
  state (save_map m w).2 = state w ∧ threads (save_map m w).2 = threads w.
Proof.
  unfold save_map, try_except, open_w, json_dump.
  rewrite !run_bind, fs_op_run.
  destruct (hd false (fs_faults w)); simpl; [done|].
  rewrite !run_bind, fs_op_run; simpl.
  by destruct (hd false (tail (fs_faults w))).
Qed.

Lemma set_mapping_run (fp : string) (idx : Z) (w : World) :
  let new_map := <[fp := idx]> (idx_map (state w)) in
  let w1 := set_state (with_idx_map new_map (state w)) w in
  set_mapping fp idx w
  = (Ok (), set_threads (threads w ++ [RefreshWorker]) (save_map new_map w1).2).
Proof.
  simpl. unfold set_mapping. rewrite run_bind. unfold install_mapping.
  rewrite run_bind.
  pose proof (save_map_ok (<[fp:=idx]> (idx_map (state w)))
    (set_state (with_idx_map (<[fp:=idx]> (idx_map (state w))) (state w)) w)) as Hok.
  pose proof (save_map_frame (<[fp:=idx]> (idx_map (state w)))
    (set_state (with_idx_map (<[fp:=idx]> (idx_map (state w))) (state w)) w)) as [_ Hth].
  destruct (save_map _ _) as [r w2]; simpl in *. subst r.
  unfold refresh_state_async, start_thread. by rewrite Hth.
Qed.

(** ** C5: [load_map] is fail-soft *)

(** C5. Whatever the state of durable storage, [load_map] returns a table
    and does not raise; the table is empty when the file is missing, when
    its text does not parse, and when opening or reading it fails. *)
Theorem load_map_fail_soft `{PyBuiltins} (w : World) :
  ∃ m, (load_map w).1 = Ok m
       ∧ (map_file w = Missing ∨ map_file w = Unparsable ∨ ¬ storage_ok 2 w
          → m = ∅).
Proof.
  exists (loaded w). split; [apply load_map_run|].
  unfold loaded, storage_ok. intros [Hf|[Hf|Hf]].
  - rewrite Hf. by destruct (fs_faults w) as [|[] [|[] ?]].
  - rewrite Hf. by destruct (fs_faults w) as [|[] [|[] ?]].
  - destruct (fs_faults w) as [|[] [|[] ?]]; try done; exfalso; apply Hf;
      simpl; repeat constructor.
Qed.

Lemma load_map_fail_soft_witness :
  map_file world0 = Missing ∧ (load_map (H:=ascii_builtins) world0).1 = Ok ∅.
Proof.
  split; [reflexivity|].
  destruct (load_map_fail_soft (H:=ascii_builtins) world0) as (m & Hm & Hempty).
  rewrite Hm. f_equal. apply Hempty. left. reflexivity.
Defined.

(** ** C10: [load_map] is all-or-nothing *)

(** C10. When the mapping file holds a JSON document, [load_map] returns
    the empty table if the document is not an object or if any one of its
    values cannot be converted by [int]; otherwise (the file being readable)
    it returns a table with every key of the document, and every entry of a
    returned table is the [int] of a value stored under that key. *)
Theorem load_map_all_or_nothing `{PyBuiltins} (w : World) (j : json) :
  map_file w = Holds j →
  (is_dict j = false → (load_map w).1 = Ok ∅)
  ∧ (∀ kvs k v e, j = JObj kvs → (k, v) ∈ kvs → py_int v = Raise e →
       (load_map w).1 = Ok ∅)
  ∧ (∀ m k z, (load_map w).1 = Ok m → m !! k = Some z →
       ∃ kvs v, j = JObj kvs ∧ (k, v) ∈ kvs ∧ py_int v = Ok z)
  ∧ (∀ kvs, j = JObj kvs → storage_ok 2 w →
       Forall (λ kv, ∃ z, py_int kv.2 = Ok z) kvs →
       ∃ m, (load_map w).1 = Ok m ∧ ∀ k, k ∈ kvs.*1 → is_Some (m !! k)).
Proof.
  intros Hf. rewrite load_map_run. unfold loaded. rewrite Hf.
  split; [|split; [|split]].
  - intros Hd. destruct (fs_faults w) as [|[] [|[] ?]]; try done;
      by destruct j.
  - intros kvs k v e -> Hin Hv.
    destruct (load_items_raise kvs ∅ k v e Hin Hv) as [e' He'].
    rewrite He'. by destruct (fs_faults w) as [|[] [|[] ?]].
  - intros m k z [= <-] Hk.
    assert (∃ kvs m', j = JObj kvs ∧ load_items kvs ∅ = Ok m'
                      ∧ m' !! k = Some z) as (kvs & m' & -> & Hl & Hk').
    { destruct (fs_faults w) as [|[] [|[] ?]]; try done;
        (destruct j as [| | | | | |kvs]; try done;
         destruct (load_items kvs ∅) as [m'|] eqn:Hl; [|done];
         by exists kvs, m'). }
    apply load_items_ok in Hl as [Hl _].
    destruct (Hl k z Hk') as [Hacc|(v & Hin & Hv)]; [done|].
    by exists kvs, v.
  - intros kvs -> Hok Hall.
    destruct (load_items_all kvs ∅ Hall) as [m Hm]. rewrite Hm.
    exists m. split.
    + unfold storage_ok in Hok.
      destruct (fs_faults w) as [|[] [|[] ?]]; try done.
      * by apply Forall_cons in Hok as [? _].
      * by apply Forall_cons in Hok as [? _].
      * by apply Forall_cons in Hok as [? _].
      * apply Forall_cons in Hok as [_ Hok]. by apply Forall_cons in Hok as [? _].
    + intros k Hk. apply load_items_ok in Hm as [_ Hm]. apply Hm. by left.
Qed.

Lemma load_map_all_or_nothing_witness :
  map_file world_mixed_file
  = Holds (JObj [("GSM|5B09|NOSN", JInt 2); ("DEL|A0F1|X7", JStr "two")])
  ∧ (load_map (H:=ascii_builtins) world_mixed_file).1 = Ok ∅.
Proof.
  split; [reflexivity|].
  destruct (load_map_all_or_nothing (H:=ascii_builtins) world_mixed_file _ eq_refl)
    as (_ & Hbad & _).
  apply (Hbad _ "DEL|A0F1|X7" (JStr "two") ValueError eq_refl).
  - right. left.
  - reflexivity.
Defined.

(** ** C4: [set_mapping] then [load_map] *)

(** C4 (as stated) fails for the table that is durable before the call:
    [set_mapping] never reads the file, it merges into the cached table and
    writes that. With a file that holds an entry for one monitor and a cache
    that does not, setting the mapping of another monitor replaces the file:
    the next [load_map] no longer has the first entry. *)
Lemma set_mapping_replaces_uncached_entries :
  (load_map (H:=ascii_builtins) world_stale_cache).1 = Ok table_a
  ∧ table_a !! "DEL|A0F1|X7" = Some 7
  ∧ storage_ok 4 world_stale_cache
  ∧ (load_map (H:=ascii_builtins)
       (set_mapping "GSM|5B09|NOSN" 3 world_stale_cache).2).1
    = Ok {["GSM|5B09|NOSN" := 3]}
  ∧ ({["GSM|5B09|NOSN" := 3]} : gmap string Z) !! "DEL|A0F1|X7" = None.
Proof.
  split; [vm_compute; reflexivity|]. split; [reflexivity|].
  split; [constructor|]. split; [vm_compute; reflexivity|reflexivity].
Qed.

(** C4 (amended). When the file operations succeed, [set_mapping fp n]
    followed by [load_map] returns the table the cache held with [fp] set
    to [n]: it maps [fp] to [n] and, for every other fingerprint, has
    exactly the entry of the cached table, whatever the file held before.
    So an entry of the table that was durable before the call is kept
    exactly where the cache agrees with it. The table is durable: every
    later [load_map] of that file returns it, whatever the cache of the
    process that reads it. *)
Theorem set_mapping_then_load `{PyBuiltins} (w : World) (fp : string) (n : Z) :
  storage_ok 4 w →
  ∃ m, (load_map (set_mapping fp n w).2).1 = Ok m
       ∧ m = <[fp := n]> (idx_map (state w))
       ∧ m !! fp = Some n
       ∧ (∀ fp', fp' ≠ fp → m !! fp' = idx_map (state w) !! fp')
       ∧ (∀ prior fp', (load_map w).1 = Ok prior → fp' ≠ fp →
            (m !! fp' = prior !! fp' ↔ idx_map (state w) !! fp' = prior !! fp'))
       ∧ (∀ w2, map_file w2 = map_file (set_mapping fp n w).2 →
            storage_ok 2 w2 → (load_map w2).1 = Ok m).
Proof.
  intros Hok. exists (<[fp := n]> (idx_map (state w))).
  assert (map_file (set_mapping fp n w).2
          = Holds (dump_map (<[fp := n]> (idx_map (state w))))) as Hfile.
  { rewrite set_mapping_run. simpl. rewrite save_map_file. simpl.
    unfold storage_ok in Hok.
    destruct (fs_faults w) as [|b1 [|b2 q]]; simpl in *; try done.
    - by apply Forall_cons in Hok as [-> _].
    - apply Forall_cons in Hok as [-> Hok]. by apply Forall_cons in Hok as [-> _]. }
  split; [|split; [done|split; [|split; [|split]]]].
  - rewrite load_map_run, set_mapping_run. unfold loaded. simpl.
    rewrite save_map_faults, save_map_file. simpl.
    unfold storage_ok in Hok.
    destruct (fs_faults w) as [|b1 [|b2 [|b3 [|b4 q]]]]; simpl in *;
      repeat match goal with
             | Hq : Forall _ (_ :: _) |- _ => apply Forall_cons in Hq as [-> Hq]
             end; simpl;
      unfold dump_map; by rewrite load_items_dump_map.
  - apply lookup_insert_eq.
  - intros fp' Hne. by rewrite lookup_insert_ne.
  - intros prior fp' _ Hne. by rewrite lookup_insert_ne.
  - intros w2 Hf2 Hok2. rewrite load_map_run. unfold loaded.
    rewrite Hf2, Hfile. unfold storage_ok in Hok2.
    destruct (fs_faults w2) as [|b1 [|b2 q]]; simpl in *;
      repeat match goal with
             | Hq : Forall _ (_ :: _) |- _ => apply Forall_cons in Hq as [-> Hq]
             end; simpl;
      unfold dump_map; by rewrite load_items_dump_map.
Qed.

Lemma set_mapping_then_load_witness :
  storage_ok 4 world_mapped
  ∧ ∃ m, (load_map (H:=ascii_builtins)
            (set_mapping "DEL|A0F1|X7" 3 world_mapped).2).1 = Ok m
         ∧ m !! "DEL|A0F1|X7" = Some 3 ∧ m !! "GSM|5B09|NOSN" = Some 2
         ∧ (load_map (H:=ascii_builtins)
              (set_map_file (map_file (set_mapping "DEL|A0F1|X7" 3 world_mapped).2)
                 world0)).1 = Ok m.
Proof.
  assert (storage_ok 4 world_mapped) as Hok by constructor.
  split; [exact Hok|].
  destruct (set_mapping_then_load (H:=ascii_builtins) world_mapped
              "DEL|A0F1|X7" 3 Hok) as (m & Hm & _ & Hfp & Hrest & _ & Hdur).
  exists m. split; [exact Hm|]. split; [exact Hfp|].
  split; [rewrite Hrest; [reflexivity|discriminate]|].
  apply Hdur; [reflexivity|constructor].
Defined.

(** ** C6: a failing [save_map] *)




(** ** The refresh pass, phase by phase *)

Lemma run_ps_run (s : ps_script) (w : World) :
  run_ps s w = (hd (Ok quiet) (ps_out w), after_ps [s] w).
Proof. unfold run_ps, after_ps. by destruct (ps_out w). Qed.

Lemma after_ps_app (l1 l2 : list ps_script) (w : World) :
  after_ps l2 (after_ps l1 w) = after_ps (l1 ++ l2) w.
Proof.
  unfold after_ps. destruct w; simpl. unfold set_launched, set_ps_out; simpl.
  f_equal.
  - rewrite drop_drop, length_app. done.
  - by rewrite fmap_app, app_assoc.
Qed.

Lemma after_ps_frame (ls : list ps_script) (w : World) :
  setdpi_isfile (after_ps ls w) = setdpi_isfile w
  ∧ setdpi_out (after_ps ls w) = setdpi_out w
  ∧ fs_faults (after_ps ls w) = fs_faults w
  ∧ map_file (after_ps ls w) = map_file w
  ∧ state (after_ps ls w) = state w
  ∧ clock (after_ps ls w) = clock w
  ∧ threads (after_ps ls w) = threads w.
Proof. done. Qed.

Section Pass.
Context `{PyBuiltins}.

Lemma list_audio_devices_world (w : World) :
  (list_audio_devices w).2 = after_ps [GetAudioDeviceList] w.
Proof.
  unfold list_audio_devices. rewrite run_bind, run_ps_run.
  destruct (hd (Ok quiet) (ps_out w)) as [cp|e]; [|done].
  unfold try_except, lift. rewrite run_bind.
  by destruct (if nonempty (stdout cp) then json_loads cp else Ok (JArr [])).
Qed.

Lemma list_monitors_world (w : World) :
  (list_monitors w).2 = after_ps [GetWmiMonitorID] w.
Proof.
  unfold list_monitors. rewrite run_bind, run_ps_run.
  destruct (hd (Ok quiet) (ps_out w)) as [cp|e]; [|done].
  unfold try_except, lift.
  by match goal with |- (match ?r with _ => _ end).2 = _ => destruct r end.
Qed.

Lemma get_default_ids_world (w w' : World) (d : gmap string (option string)) :
  get_default_ids w = (Ok d, w') → w' = after_ps (GetAudioDeviceID <$> roles.*2) w.
Proof.
  unfold get_default_ids. simpl.
  repeat (rewrite !run_bind, run_ps_run;
          match goal with
          | |- context [hd (Ok quiet) (ps_out ?x)] =>
              destruct (hd (Ok quiet) (ps_out x)); [|discriminate]
          end; rewrite ?run_ret).
  rewrite !after_ps_app. simpl. by intros [= _ <-].
Qed.

Lemma load_map_world (w : World) :
  ∃ q, (load_map w).2 = set_fs_faults q w.
Proof.
  unfold load_map, try_except, open_r, json_load.
  rewrite !run_bind, fs_op_run.
  destruct (hd false (fs_faults w)); simpl; [by eexists|].
  unfold file_found; simpl. destruct (map_file w) as [| |j] eqn:Hf; simpl.
  - by eexists.
  - rewrite !run_bind, fs_op_run; simpl. unfold file_document; simpl. rewrite Hf.
    destruct (hd false (tail (fs_faults w))); simpl; eexists; reflexivity.
  - rewrite !run_bind, fs_op_run; simpl. unfold file_document; simpl. rewrite Hf.
    destruct (hd false (tail (fs_faults w))); simpl; [by eexists|].
    unfold lift.
    destruct (py_items j ≫= λ kvs, load_items kvs ∅); simpl; eexists; reflexivity.
Qed.

Lemma get_dpi_value_run (idx : Z) (w : World) :
  get_dpi_value idx w =
  if setdpi_isfile w
  then (match hd (Ok "") (setdpi_out w) with
        | Ok out => Ok (or_none (str_strip out))
        | Raise e => Raise e
        end,
        set_launched (launched w ++ [SetDpiValue idx])
          (set_setdpi_out (tail (setdpi_out w)) w))
  else (Ok None, w).
Proof.
  unfold get_dpi_value. destruct (setdpi_isfile w); simpl; [|done].
  rewrite run_bind. unfold run_setdpi.
  by destruct (setdpi_out w) as [|[out|e] q].
Qed.

Lemma or_none_Some (s v : string) : or_none s = Some v → v = s ∧ nonempty v = true.
Proof. unfold or_none. destruct (nonempty s) eqn:Hs; [|done]. by intros [= <-]. Qed.

End Pass.

Section DpiLoop.
Context `{PyBuiltins}.

Lemma read_dpi_run (im : gmap string Z) (acc : gmap Z string) (m : Monitor)
    (w : World) :
  read_dpi im acc m w =
  if setdpi_isfile w
  then (match hd (Ok "") (setdpi_out w) with
        | Ok out =>
            Ok (match or_none (str_strip out) with
                | Some v => <[effective_index im m := v]> acc
                | None => acc
                end)
        | Raise e => Raise e
        end,
        set_launched (launched w ++ [SetDpiValue (effective_index im m)])
          (set_setdpi_out (tail (setdpi_out w)) w))
  else (Ok acc, w).
Proof.
  unfold read_dpi. rewrite run_bind, get_dpi_value_run.
  destruct (setdpi_isfile w); [|done].
  destruct (hd (Ok "") (setdpi_out w)) as [out|e]; [|done].
  rewrite run_ret. destruct (or_none (str_strip out)) as [v|] eqn:Hv; [|done].
  apply or_none_Some in Hv as [_ ->]. done.
Qed.

Lemma dpi_reading_0 (w : World) :
  setdpi_isfile w = true →
  dpi_reading w 0 = match hd (Ok "") (setdpi_out w) with
                    | Ok out => or_none (str_strip out)
                    | Raise _ => None
                    end.
Proof. unfold dpi_reading. intros ->. by destruct (setdpi_out w). Qed.

Lemma dpi_reading_S (w : World) (l : list launch) (i : nat) :
  dpi_reading (set_launched l (set_setdpi_out (tail (setdpi_out w)) w)) i
  = dpi_reading w (S i).
Proof. unfold dpi_reading; simpl. by destruct (setdpi_out w). Qed.

Lemma dpi_reading_off (w : World) (i : nat) :
  setdpi_isfile w = false → dpi_reading w i = None.
Proof. unfold dpi_reading. by intros ->. Qed.

(** The DPI loop of [collect_state]: what it launches, what it leaves
    alone, and where each key of the map it builds comes from. *)
Lemma dpi_loop (im : gmap string Z) (ms : list Monitor) :
  ∀ (acc : gmap Z string) (w : World) (d : gmap Z string) (w' : World),
    for_each (read_dpi im) ms acc w = (Ok d, w') →
    launched w' = launched w
      ++ (if setdpi_isfile w then SetDpiValue ∘ effective_index im <$> ms else [])
    ∧ (state w' = state w ∧ clock w' = clock w ∧ map_file w' = map_file w
       ∧ threads w' = threads w)
    ∧ (∀ k v, d !! k = Some v →
         acc !! k = Some v
         ∨ (v ≠ "" ∧ ∃ i m, ms !! i = Some m ∧ effective_index im m = k
                            ∧ dpi_reading w i = Some v))
    ∧ (∀ k, is_Some (acc !! k)
            ∨ (∃ i m v, ms !! i = Some m ∧ effective_index im m = k
                        ∧ dpi_reading w i = Some v) →
            is_Some (d !! k)).
Proof.
  induction ms as [|m ms IH]; intros acc w d w'.
  - simpl. rewrite run_ret. intros [= <- <-]. split; [|split; [done|split]].
    + destruct (setdpi_isfile w); by rewrite app_nil_r.
    + intros k v Hk. by left.
    + intros k [Hk|(i & m & v & Hi & _)]; [done|]. by rewrite lookup_nil in Hi.
  - cbn [for_each]. rewrite run_bind, read_dpi_run.
    destruct (setdpi_isfile w) eqn:Hfile.
    + destruct (hd (Ok "") (setdpi_out w)) as [out|e] eqn:Hhd; [|done].
      intros Hrest. apply IH in Hrest as (Hl & Hfr & Hfrom & Hto).
      simpl in Hl, Hfr. rewrite Hfile in Hl.
      pose proof (dpi_reading_0 w Hfile) as H0. rewrite Hhd in H0.
      split; [|split; [done|split]].
      * rewrite Hl, <- app_assoc. done.
      * intros k v Hk. apply Hfrom in Hk as [Hk|(Hv & i & m' & Hi & He & Hr)].
        -- destruct (or_none (str_strip out)) as [v0|] eqn:Hv0; [|by left].
           destruct (decide (effective_index im m = k)) as [<-|Hne].
           ++ rewrite lookup_insert_eq in Hk. injection Hk as ->.
              right. split.
              ** apply or_none_Some in Hv0 as [_ Hne]. by destruct v.
              ** by exists 0%nat, m.
           ++ rewrite lookup_insert_ne in Hk by done. by left.
        -- right. split; [done|]. exists (S i), m'.
           by rewrite dpi_reading_S in Hr.
      * intros k Hk. apply Hto.
        destruct Hk as [Hk|(i & m' & v & Hi & He & Hr)].
        -- left. destruct (or_none (str_strip out)); [|done].
           destruct (decide (effective_index im m = k)) as [<-|Hne].
           ++ rewrite lookup_insert_eq. by eexists.
           ++ by rewrite lookup_insert_ne.
        -- destruct i as [|i]; simpl in Hi.
           ++ injection Hi as <-. left. rewrite H0 in Hr. rewrite Hr, He.
              rewrite lookup_insert_eq. by eexists.
           ++ right. exists i, m', v. by rewrite dpi_reading_S.
    + intros Hrest. apply IH in Hrest as (Hl & Hfr & Hfrom & Hto).
      rewrite Hfile in Hl. split; [done|split; [done|split]].
      * intros k v Hk. apply Hfrom in Hk as [Hk|(_ & i & m' & _ & _ & Hr)];
          [by left|]. by rewrite dpi_reading_off in Hr.
      * intros k Hk. apply Hto.
        destruct Hk as [Hk|(i & m' & v & _ & _ & Hr)]; [by left|].
        by rewrite dpi_reading_off in Hr.
Qed.

End DpiLoop.

Section CollectState.
Context `{PyBuiltins}.

(** A pass that completes ran every phase to its end: the published fields
    are what the phases returned, and the DPI loop ran over the published
    monitors and mapping, in the world the earlier phases left. *)
Lemma collect_state_ok (w w' : World) :
  collect_state w = (Ok (), w') →
  ∃ (q : list bool) (w5 : World),
    for_each (read_dpi (idx_map (state w'))) (mons (state w')) ∅
      (set_fs_faults q (after_ps pass_scripts w))
    = (Ok (dpi (state w')), w5)
    ∧ idx_map (state w') = loaded w
    ∧ launched w' = launched w5
    ∧ map_file w' = map_file w5
    ∧ threads w' = threads w5.
Proof.
  unfold collect_state. rewrite run_bind.
  pose proof (list_audio_devices_world w) as Hw1.
  destruct (list_audio_devices w) as [[raw|e] w1]; [|done]. simpl in Hw1. subst w1.
  unfold lift at 1. rewrite run_bind.
  destruct (list_devices_by_type_from_raw raw "playback") as [o|e]; [|done].
  unfold lift at 1. rewrite run_bind.
  destruct (list_devices_by_type_from_raw raw "recording") as [i|e]; [|done].
  rewrite run_bind.
  destruct (get_default_ids _) as [[df|e] w2] eqn:Hids; [|done].
  apply get_default_ids_world in Hids. subst w2. rewrite after_ps_app.
  rewrite run_bind.
  pose proof (list_monitors_world
    (after_ps ([GetAudioDeviceList] ++ (GetAudioDeviceID <$> roles.*2)) w)) as Hw3.
  destruct (list_monitors _) as [[ms|e] w3]; [|done]. simpl in Hw3. subst w3.
  rewrite after_ps_app.
  match goal with |- context [after_ps ?l w] => change l with pass_scripts end.
  rewrite run_bind.
  pose proof (load_map_run (after_ps pass_scripts w)) as Hload.
  destruct (load_map_world (after_ps pass_scripts w)) as [q Hw4].
  destruct (load_map _) as [r w4]. simpl in Hload, Hw4. subst r w4.
  assert (loaded (after_ps pass_scripts w) = loaded w) as -> by done.
  rewrite run_bind.
  destruct (for_each _ ms ∅ _) as [[d|e] w5] eqn:Hloop; [|done].
  unfold publish. intros [= <-]. simpl. by exists q, w5.
Qed.

(** Keys of the published DPI map, and the processes a pass starts. *)
Lemma collect_state_dpi (w w' : World) :
  collect_state w = (Ok (), w') →
  launched w' = launched w ++ (PowerShell <$> pass_scripts)
    ++ (if setdpi_isfile w
        then SetDpiValue ∘ effective_index (idx_map (state w')) <$> mons (state w')
        else [])
  ∧ (∀ k v, dpi (state w') !! k = Some v →
       v ≠ "" ∧ ∃ i m, mons (state w') !! i = Some m
                       ∧ effective_index (idx_map (state w')) m = k
                       ∧ dpi_reading w i = Some v)
  ∧ (∀ k, (∃ i m v, mons (state w') !! i = Some m
                    ∧ effective_index (idx_map (state w')) m = k
                    ∧ dpi_reading w i = Some v) →
          is_Some (dpi (state w') !! k)).
Proof.
  intros Hrun. apply collect_state_ok in Hrun as (q & w5 & Hloop & _ & Hl & _).
  apply dpi_loop in Hloop as (Hl5 & _ & Hfrom & Hto).
  assert (∀ i, dpi_reading (set_fs_faults q (after_ps pass_scripts w)) i
               = dpi_reading w i) as Hrd by done.
  split; [|split].
  - rewrite Hl, Hl5. simpl. by rewrite <- app_assoc.
  - intros k v Hk. apply Hfrom in Hk as [Hk|(Hv & i & m & Hi & He & Hr)].
    + by rewrite lookup_empty in Hk.
    + split; [done|]. exists i, m. by rewrite Hrd in Hr.
  - intros k (i & m & v & Hi & He & Hr). apply Hto. right.
    exists i, m, v. by rewrite Hrd.
Qed.

End CollectState.

(** ** C1: keys of the scale map *)

Example collect_state_two_monitors :
  let s := state (collect_state (H:=ascii_builtins) world_two_monitors).2 in
  (collect_state (H:=ascii_builtins) world_two_monitors).1 = Ok ()
  ∧ mons s = [ {| mon_index := 1; mon_name := JStr "DELL U2720Q";
                  mon_fp := "DEL|A0F1|X7" |};
               {| mon_index := 2; mon_name := JStr "LG ULTRAGEAR";
                  mon_fp := "GSM|5B09|NOSN" |} ]
  ∧ idx_map s = {["DEL|A0F1|X7" := 7]}
  ∧ dpi s = {[7 := "125"]}.
Proof. cbv zeta. repeat split; vm_compute; reflexivity. Qed.

(** C1 (as stated) fails: with two monitors whose effective indices are 7
    and 2, and SetDpi.exe printing nothing for index 2, the pass publishes a
    scale map whose only key is 7. *)
Lemma scale_keys_not_all_effective_indices :
  let s := state (collect_state (H:=ascii_builtins) world_two_monitors).2 in
  (collect_state (H:=ascii_builtins) world_two_monitors).1 = Ok ()
  ∧ dom (dpi s) ≠ list_to_set (effective_index (idx_map s) <$> mons s).
Proof.
  split; [by vm_compute|].
  intros Heq.
  assert (2 ∈ (list_to_set (effective_index (idx_map (state
            (collect_state (H:=ascii_builtins) world_two_monitors).2))
          <$> mons (state (collect_state (H:=ascii_builtins)
                             world_two_monitors).2)) : gset Z)) as Hin
    by (by vm_compute).
  rewrite <- Heq in Hin. by vm_compute in Hin.
Qed.

(** C1 (amended). In the snapshot a completed pass publishes, the keys of
    the scale map are exactly the effective indices of those monitors whose
    scale read returned a non-empty value; hence they form a subset of the
    effective indices of the snapshot's monitors under its mapping. *)
Theorem scale_keys_are_read_indices `{PyBuiltins} (w w' : World) :
  collect_state w = (Ok (), w') →
  (∀ k, k ∈ dom (dpi (state w')) ↔
        ∃ i m v, mons (state w') !! i = Some m
                 ∧ effective_index (idx_map (state w')) m = k
                 ∧ dpi_reading w i = Some v)
  ∧ dom (dpi (state w'))
    ⊆ list_to_set (effective_index (idx_map (state w')) <$> mons (state w')).
Proof.
  intros Hrun. apply collect_state_dpi in Hrun as (_ & Hfrom & Hto).
  assert (∀ k, k ∈ dom (dpi (state w')) →
            ∃ i m v, mons (state w') !! i = Some m
                     ∧ effective_index (idx_map (state w')) m = k
                     ∧ dpi_reading w i = Some v) as Hdom.
  { intros k [v Hk]%elem_of_dom. apply Hfrom in Hk as (_ & i & m & ?).
    by exists i, m, v. }
  split.
  - intros k. split; [apply Hdom|]. intros Hk. apply elem_of_dom. by apply Hto.
  - intros k Hk. apply Hdom in Hk as (i & m & v & Hi & <- & _).
    apply elem_of_list_to_set, list_elem_of_fmap. exists m. split; [done|].
    by eapply list_elem_of_lookup_2.
Qed.

Lemma scale_keys_are_read_indices_witness :
  let w' := (collect_state (H:=ascii_builtins) world_two_monitors).2 in
  collect_state (H:=ascii_builtins) world_two_monitors = (Ok (), w')
  ∧ dom (dpi (state w'))
    ⊆ list_to_set (effective_index (idx_map (state w')) <$> mons (state w')).
Proof.
  assert (collect_state (H:=ascii_builtins) world_two_monitors
          = (Ok (), (collect_state (H:=ascii_builtins) world_two_monitors).2))
    as Hrun by (vm_compute; reflexivity).
  split; [exact Hrun|].
  exact (proj2 (scale_keys_are_read_indices (H:=ascii_builtins) _ _ Hrun)).
Defined.

(** ** C2: effective index, scale queries, omitted reads *)

(** The example of the specification: mapping [{fpA: 7}] and monitors with
    ephemeral indices 1 (fpA) and 2 (fpB). *)
Example effective_index_example :
  effective_index {["fpA" := 7]}
    <$> [ {| mon_index := 1; mon_name := JNull; mon_fp := "fpA" |};
          {| mon_index := 2; mon_name := JNull; mon_fp := "fpB" |} ]
  = [7; 2].
Proof. reflexivity. Qed.

(** C2. For each monitor the pass computes the mapped index of its
    fingerprint, or its ephemeral index when the fingerprint has no entry;
    it asks SetDpi.exe for the value of exactly these indices, one query
    per monitor in order; the scale map holds a value only where a query at
    that index returned a non-empty one, and holds nothing for an index
    whose queries all came back empty. *)
Theorem effective_index_queries `{PyBuiltins} (w w' : World) :
  collect_state w = (Ok (), w') →
  (∀ m, effective_index (idx_map (state w')) m
        = match idx_map (state w') !! mon_fp m with
          | Some n => n
          | None => mon_index m
          end)
  ∧ (setdpi_isfile w = true →
       launched w' = launched w ++ (PowerShell <$> pass_scripts)
         ++ (SetDpiValue ∘ effective_index (idx_map (state w'))
             <$> mons (state w')))
  ∧ (∀ k v, dpi (state w') !! k = Some v →
       v ≠ "" ∧ ∃ i m, mons (state w') !! i = Some m
                       ∧ effective_index (idx_map (state w')) m = k
                       ∧ dpi_reading w i = Some v)
  ∧ (∀ k, (∀ i m, mons (state w') !! i = Some m →
                  effective_index (idx_map (state w')) m = k →
                  dpi_reading w i = None) →
          dpi (state w') !! k = None).
Proof.
  intros Hrun. apply collect_state_dpi in Hrun as (Hl & Hfrom & Hto).
  split; [|split; [|split]].
  - intros m. unfold effective_index. by destruct (_ !! _).
  - intros Hfile. by rewrite Hfile in Hl.
  - exact Hfrom.
  - intros k Hnone. destruct (dpi (state w') !! k) as [v|] eqn:Hk; [|done].
    apply Hfrom in Hk as (_ & i & m & Hi & He & Hr).
    by rewrite (Hnone i m Hi He) in Hr.
Qed.

Lemma effective_index_queries_witness :
  let w' := (collect_state (H:=ascii_builtins) world_two_monitors).2 in
  collect_state (H:=ascii_builtins) world_two_monitors = (Ok (), w')
  ∧ launched w'
    = (PowerShell <$> pass_scripts) ++ [SetDpiValue 7; SetDpiValue 2]
  ∧ dpi (state w') !! 2 = None.
Proof.
  assert (collect_state (H:=ascii_builtins) world_two_monitors
          = (Ok (), (collect_state (H:=ascii_builtins) world_two_monitors).2))
    as Hrun by (vm_compute; reflexivity).
  split; [exact Hrun|].
  destruct (effective_index_queries (H:=ascii_builtins) _ _ Hrun)
    as (_ & Hlaunch & _ & Hnone).
  split.
  - rewrite (Hlaunch eq_refl). vm_compute. reflexivity.
  - apply Hnone. intros [|[|i]] m Hi He; vm_compute in Hi; try discriminate.
    + injection Hi as <-. vm_compute in He. discriminate.
    + reflexivity.
Defined.

(** ** C3: failures inside a refresh pass *)

Lemma keeps_state_ret {A} (a : A) : keeps_state (mret a : M A).
Proof. done. Qed.

Lemma keeps_state_lift {A} (r : result A) : keeps_state (lift r).
Proof. done. Qed.

Lemma keeps_state_bind {A B} (c : M A) (f : A → M B) :
  keeps_state c → (∀ a, keeps_state (f a)) → keeps_state (c ≫= f).
Proof.
  intros Hc Hf w. rewrite run_bind. specialize (Hc w).
  destruct (c w) as [[a|e] w1]; simpl in *; [|done]. by rewrite Hf.
Qed.

Lemma keeps_state_try_except {A} (c : M A) (h : exn → M A) :
  keeps_state c → (∀ e, keeps_state (h e)) → keeps_state (try_except c h).
Proof.
  intros Hc Hh w. unfold try_except. specialize (Hc w).
  destruct (c w) as [[a|e] w1]; simpl in *; [done|]. by rewrite Hh.
Qed.

Lemma keeps_state_for_each {A B} (body : B → A → M B) (xs : list A) (acc : B) :
  (∀ b a, keeps_state (body b a)) → keeps_state (for_each body xs acc).
Proof.
  intros Hbody. revert acc. induction xs as [|x xs IH]; intros acc; [done|].
  cbn [for_each]. apply keeps_state_bind; [apply Hbody|apply IH].
Qed.

Lemma keeps_state_run_ps (s : ps_script) : keeps_state (run_ps s).
Proof. intros w. by rewrite run_ps_run. Qed.

Lemma keeps_state_fs_op : keeps_state fs_op.
Proof. intros w. by rewrite fs_op_run. Qed.

Lemma raise_keeps_state_bind {A B} (c : M A) (f : A → M B) :
  keeps_state c → (∀ a, raise_keeps_state (f a)) → raise_keeps_state (c ≫= f).
Proof.
  intros Hc Hf w e. rewrite run_bind. specialize (Hc w).
  destruct (c w) as [[a|e'] w1]; simpl in *; [|done].
  intros Hr. by rewrite (Hf a w1 e Hr).
Qed.

Section Degradation.
Context `{PyBuiltins}.

Lemma keeps_state_list_audio_devices : keeps_state list_audio_devices.
Proof. intros w. by rewrite list_audio_devices_world. Qed.

Lemma keeps_state_list_monitors : keeps_state list_monitors.
Proof. intros w. by rewrite list_monitors_world. Qed.

Lemma keeps_state_get_default_ids : keeps_state get_default_ids.
Proof.
  apply keeps_state_for_each. intros out [k p].
  apply keeps_state_bind; [apply keeps_state_run_ps|done].
Qed.

Lemma keeps_state_load_map : keeps_state load_map.
Proof. intros w. destruct (load_map_world w) as [q ->]. done. Qed.

Lemma keeps_state_read_dpi im acc m : keeps_state (read_dpi im acc m).
Proof.
  intros w. rewrite read_dpi_run. by destruct (setdpi_isfile w).
Qed.

Lemma collect_state_raise_keeps_state : raise_keeps_state collect_state.
Proof.
  unfold collect_state.
  apply raise_keeps_state_bind; [apply keeps_state_list_audio_devices|intros raw].
  apply raise_keeps_state_bind; [apply keeps_state_lift|intros o].
  apply raise_keeps_state_bind; [apply keeps_state_lift|intros i].
  apply raise_keeps_state_bind; [apply keeps_state_get_default_ids|intros df].
  apply raise_keeps_state_bind; [apply keeps_state_list_monitors|intros ms].
  apply raise_keeps_state_bind; [apply keeps_state_load_map|intros im].
  apply raise_keeps_state_bind.
  - apply keeps_state_for_each. intros. apply keeps_state_read_dpi.
  - intros d w e. done.
Qed.

Lemma list_audio_devices_run (w : World) :
  list_audio_devices w =
  (match hd (Ok quiet) (ps_out w) with
   | Ok cp => Ok (parse_audio cp)
   | Raise e => Raise e
   end, after_ps [GetAudioDeviceList] w).
Proof.
  unfold list_audio_devices, parse_audio. rewrite run_bind, run_ps_run.
  destruct (hd (Ok quiet) (ps_out w)) as [cp|e]; [|done].
  unfold try_except, lift. rewrite run_bind.
  by destruct (if nonempty (stdout cp) then json_loads cp else Ok (JArr [])).
Qed.

Lemma parse_audio_unusable (cp : CompletedProcess) :
  stdout cp = "" ∨ stdout_json cp = None → parse_audio cp = JArr [].
Proof.
  unfold parse_audio, json_loads. intros [->| ->]; [done|].
  by destruct (nonempty (stdout cp)).
Qed.

Lemma _refresh_worker_ok (w : World) : (_refresh_worker w).1 = Ok ().
Proof.
  unfold _refresh_worker, try_except.
  by destruct ((collect_state ≫= λ _, refresh_menu) w) as [[[]|e] w1].
Qed.

End Degradation.

Section PartialDegradation.
Context `{PyBuiltins}.

(** The phases after the audio list do not look at the endpoint lists: they
    run the same way whatever [o] and [i] are, and only the published
    [outs] and [ins] differ. *)
Lemma collect_tail_indep (o i o' i' : list (json * json)) (w : World) :
  let tail_of (o i : list (json * json)) : M () :=
    defs ← get_default_ids;
    mons ← list_monitors;
    idx_map ← load_map;
    dpi ← for_each (read_dpi idx_map) mons ∅;
    publish o i defs mons idx_map dpi in
  (tail_of o i w).1 = (tail_of o' i' w).1
  ∧ ((tail_of o' i' w).1 = Ok () →
       state (tail_of o i w).2
       = {| outs := o; ins := i;
            defs := defs (state (tail_of o' i' w).2);
            mons := mons (state (tail_of o' i' w).2);
            dpi := dpi (state (tail_of o' i' w).2);
            idx_map := idx_map (state (tail_of o' i' w).2);
            last_update := last_update (state (tail_of o' i' w).2) |}).
Proof.
  simpl. rewrite !run_bind.
  destruct (get_default_ids w) as [[df|e] w2]; [|done].
  rewrite !run_bind. destruct (list_monitors w2) as [[ms|e] w3]; [|done].
  rewrite !run_bind. destruct (load_map w3) as [[im|e] w4]; [|done].
  rewrite !run_bind. destruct (for_each _ ms ∅ w4) as [[d|e] w5]; [|done].
  done.
Qed.

(** C3 (amended). For every pass: [_refresh_worker] never raises, and a
    pass that raises publishes nothing, the cached state stays as it was.
    When the audio list comes back empty or is not JSON, the pass ends as it
    would have with a well-formed list, and publishes the same defaults,
    monitors, mapping, scale and time stamp, with empty endpoint lists. *)
Theorem refresh_partial_degradation (w : World) :
  (_refresh_worker w).1 = Ok ()
  ∧ (∀ e, (collect_state w).1 = Raise e → state (collect_state w).2 = state w)
  ∧ (∀ (cp good : CompletedProcess) (o i : list (json * json)),
       hd (Ok quiet) (ps_out w) = Ok cp →
       stdout cp = "" ∨ stdout_json cp = None →
       list_devices_by_type_from_raw (parse_audio good) "playback" = Ok o →
       list_devices_by_type_from_raw (parse_audio good) "recording" = Ok i →
       let degraded := collect_state w in
       let healthy := collect_state (set_ps_out (Ok good :: tail (ps_out w)) w) in
       degraded.1 = healthy.1
       ∧ (healthy.1 = Ok () →
            state degraded.2
            = {| outs := []; ins := [];
                 defs := defs (state healthy.2);
                 mons := mons (state healthy.2);
                 dpi := dpi (state healthy.2);
                 idx_map := idx_map (state healthy.2);
                 last_update := last_update (state healthy.2) |})).
Proof.
  split; [apply _refresh_worker_ok|].
  split; [apply collect_state_raise_keeps_state|].
  intros cp good o i Hps Hcp Ho Hi. simpl.
  unfold collect_state. rewrite !run_bind, !list_audio_devices_run.
  assert (after_ps [GetAudioDeviceList] (set_ps_out (Ok good :: tail (ps_out w)) w)
          = after_ps [GetAudioDeviceList] w) as ->.
  { unfold after_ps. cbn [ps_out set_ps_out length drop launched].
    by destruct (ps_out w). }
  cbn [hd ps_out set_ps_out]. rewrite Hps.
  rewrite (parse_audio_unusable cp Hcp).
  unfold lift. rewrite !run_bind, Ho. cbn [py_iter list_devices_by_type_from_raw
    list_devices_loop mbind result_bind]. rewrite !run_bind, Hi.
  apply (collect_tail_indep [] [] o i).
Qed.

End PartialDegradation.

Lemma refresh_partial_degradation_witness :
  hd (Ok quiet) (ps_out (world_audio (printed_text "Get-AudioDevice : not recognized")))
  = Ok (printed_text "Get-AudioDevice : not recognized")
  ∧ (collect_state (H:=ascii_builtins)
       (world_audio (printed_json (JArr [speaker])))).1 = Ok ()
  ∧ state (collect_state (H:=ascii_builtins)
             (world_audio (printed_text "Get-AudioDevice : not recognized"))).2
    = {| outs := []; ins := [];
         defs := defs (state (collect_state (H:=ascii_builtins)
                                (world_audio (printed_json (JArr [speaker])))).2);
         mons := mons (state (collect_state (H:=ascii_builtins)
                                (world_audio (printed_json (JArr [speaker])))).2);
         dpi := {[7 := "125"]};
         idx_map := {["DEL|A0F1|X7" := 7]};
         last_update := 1700000000 |}.
Proof.
  destruct (proj2 (proj2 (refresh_partial_degradation (H:=ascii_builtins)
              (world_audio (printed_text "Get-AudioDevice : not recognized"))))
              (printed_text "Get-AudioDevice : not recognized")
              (printed_json (JArr [speaker]))
              [(JStr "Speakers", JStr "{0.0.0.00000000}.{a1}")] []
              eq_refl (or_intror eq_refl) eq_refl eq_refl)
    as (_ & Hstate).
  assert ((collect_state (H:=ascii_builtins)
             (world_audio (printed_json (JArr [speaker])))).1 = Ok ())
    as Hok by (vm_compute; reflexivity).
  split; [reflexivity|]. split; [exact Hok|].
  etransitivity; [exact (Hstate Hok)|]. vm_compute. reflexivity.
Defined.

(** C3 (as stated) fails. An audio list in which an endpoint's [Device]
    came out as [null] makes the pass raise to its caller, and nothing is
    published: the cached state has no monitors and no scale, although the
    monitor and scale queries would have answered. Likewise a SetDpi.exe
    that cannot be run is not guarded: the pass raises and the endpoints and
    monitors already collected are not published. *)
Lemma malformed_audio_aborts_pass :
  let w := world_audio (printed_json (JArr [speaker_without_device])) in
  (collect_state (H:=ascii_builtins) w).1 = Raise AttributeError
  ∧ state (collect_state (H:=ascii_builtins) w).2 = state0
  ∧ mons (state (collect_state (H:=ascii_builtins)
                   (world_audio (printed_json (JArr [speaker])))).2) ≠ []
  ∧ (collect_state (H:=ascii_builtins) world_setdpi_unrunnable).1
    = Raise OSError
  ∧ state (collect_state (H:=ascii_builtins) world_setdpi_unrunnable).2
    = state0.
Proof. cbv zeta. repeat split; try (vm_compute; reflexivity). by vm_compute. Qed.

(** ** C7: [set_mapping] and the indices the menu offers *)






(** ** C8: one refresh after every action *)



Lemma set_default_device_threads (device_id : json) (role : string) (w : World) :
  threads (set_default_device device_id role w).2 = threads w.
Proof.
  unfold set_default_device. destruct (truthy device_id); simpl; [|done].
  rewrite run_bind, run_ps_run. by destruct (hd (Ok quiet) (ps_out w)).
Qed.



(** Both outcomes occur: SetDpi.exe failing to start makes the work raise,
    PowerShell failing to start likewise; one refresh thread is started in
    each case, as when the mutation succeeds. *)
Example refresh_after_failed_and_successful_actions :
  (set_dpi_work 150 2 world_setdpi_broken).1 = Raise OSError
  ∧ threads (set_dpi_work 150 2 world_setdpi_broken).2 = [RefreshWorker]
  ∧ (set_audio_work (JStr "{0.0.0.00000000}.{a1}") "console" world_ps_broken).1
    = Raise OSError
  ∧ threads (set_audio_work (JStr "{0.0.0.00000000}.{a1}") "console"
               world_ps_broken).2 = [RefreshWorker]
  ∧ (set_dpi_work 150 2 world_two_monitors).1 = Ok ()
  ∧ threads (set_dpi_work 150 2 world_two_monitors).2 = [RefreshWorker].
Proof. by vm_compute. Qed.

(** ** C9: readers of the cache during a replace *)

Lemma same_field_copy_eq (f : field) (src dst : State) :
  same_field f (copy_field f src dst) src.
Proof. by destruct f. Qed.

Lemma same_field_copy (f f' : field) (src dst : State) :
  same_field f' dst src → same_field f' (copy_field f src dst) src.
Proof. by destruct f, f'. Qed.

Lemma same_fields_eq (a b : State) :
  Forall (λ f, same_field f a b) reader_program → a = b.
Proof.
  unfold reader_program. intros Hall.
  repeat match goal with
         | Hq : Forall _ (_ :: _) |- _ =>
             let Hf := fresh "Hf" in apply Forall_cons in Hq as [Hf Hq]
         end.
  destruct a, b; simpl in *. congruence.
Qed.

Lemma written_all (old new : State) :
  written (length writer_program) old new = new.
Proof. by destruct old, new. Qed.

Lemma written_S (k : nat) (f : field) (old new : State) :
  writer_program !! k = Some f →
  written (S k) old new = copy_field f new (written k old new).
Proof.
  intros Hk. unfold written. by rewrite (take_S_r _ _ _ Hk), foldl_app.
Qed.

Lemma inv_start (old new : State) (locals : list State) :
  inv old new (start old locals).
Proof.
  split; [done|]. intros i r Hr. simpl in Hr.
  apply list_lookup_fmap_Some in Hr as (l & -> & _). done.
Qed.

Lemma inv_step (old new : State) (c c' : Config) :
  inv old new c → step new c c' → inv old new c'.
Proof.
  intros [Hw Hr] Hstep. unfold writer_inv in Hw.
  destruct Hstep as [c Hpc Hfree|c k f Hpc Hf|c Hpc|c i l Hi Hfree
                    |c i k l f Hi Hf|c i l Hi].
  - rewrite Hpc in Hw. destruct Hw as [Hsh _]. split.
    + unfold writer_inv; simpl. repeat split; [lia|done].
    + intros j r Hj. specialize (Hr j r Hj). unfold reader_inv in *; simpl.
      rewrite Hfree in Hr. destruct r.1; [done|by destruct Hr|].
      by destruct Hr.
  - rewrite Hpc in Hw. destruct Hw as (Hlk & Hk & Hsh). split.
    + unfold writer_inv; simpl. split; [done|]. split.
      * apply lookup_lt_Some in Hf. simpl in Hf. lia.
      * by rewrite (written_S k f), Hsh.
    + intros j r Hj. specialize (Hr j r Hj). unfold reader_inv in *; simpl.
      rewrite Hlk in Hr |- *. destruct r.1; [done|by destruct Hr|done].
  - rewrite Hpc in Hw. destruct Hw as (Hlk & _ & Hsh). split.
    + unfold writer_inv; simpl. by rewrite Hsh, written_all.
    + intros j r Hj. specialize (Hr j r Hj). unfold reader_inv in *; simpl.
      rewrite Hlk in Hr. destruct r.1; [done|by destruct Hr|].
      by destruct Hr.
  - split.
    + unfold writer_inv; simpl. rewrite Hfree in Hw.
      destruct (writer c); [by destruct Hw|by destruct Hw|by destruct Hw].
    + intros j r Hj. simpl in Hj.
      apply list_lookup_insert_Some in Hj as [(<- & <- & _)|[Hne Hj]].
      * unfold reader_inv; simpl. repeat split; [lia|done].
      * specialize (Hr j r Hj). unfold reader_inv in *; simpl.
        rewrite Hfree in Hr. destruct r.1.
        -- intros [= ->]. done.
        -- by destruct Hr.
        -- destruct Hr as [_ Hr]. split; [|done]. intros [= ->]. done.
  - pose proof (Hr i _ Hi) as Hri. unfold reader_inv in Hri; simpl in Hri.
    destruct Hri as (Hlk & Hk & Hsame). split.
    + done.
    + intros j r Hj. simpl in Hj.
      apply list_lookup_insert_Some in Hj as [(<- & <- & _)|[Hne Hj]].
      * unfold reader_inv; cbn [fst snd lock shared]. split; [done|]. split.
        -- pose proof (lookup_lt_Some _ _ _ Hf) as Hlt. simpl in Hlt |- *. lia.
        -- rewrite (take_S_r _ _ _ Hf). apply Forall_app. split.
           ++ eapply Forall_impl; [exact Hsame|]. intros f'. apply same_field_copy.
           ++ apply Forall_singleton, same_field_copy_eq.
      * by specialize (Hr j r Hj).
  - pose proof (Hr i _ Hi) as Hri. unfold reader_inv in Hri; simpl in Hri.
    destruct Hri as (Hlk & _ & Hsame).
    assert (l = shared c) as Heq by (apply same_fields_eq; exact Hsame).
    clear Hsame. rewrite Hlk in Hw. split.
    + unfold writer_inv; simpl.
      destruct (writer c); [by destruct Hw|by destruct Hw|by destruct Hw].
    + intros j r Hj. simpl in Hj.
      apply list_lookup_insert_Some in Hj as [(<- & <- & _)|[Hne Hj]].
      * unfold reader_inv; simpl. split; [done|]. rewrite Heq.
        destruct (writer c); [left; by destruct Hw|by destruct Hw
                             |right; by destruct Hw].
      * specialize (Hr j r Hj). unfold reader_inv in *; simpl.
        rewrite Hlk in Hr. destruct r.1.
        -- done.
        -- destruct Hr as [[= ->] _]. done.
        -- by destruct Hr.
Qed.

Lemma inv_reachable (old new : State) (locals : list State) (c : Config) :
  rtc (step new) (start old locals) c → inv old new c.
Proof.
  revert c. apply rtc_ind_r.
  - apply inv_start.
  - intros c c' _ Hstep Hinv. by eapply inv_step.
Qed.

(** C9. While the refresh thread replaces the cached snapshot [old] by
    [new], field after field inside [with state_lock:], any number of menu
    threads copy the fields inside [with state_lock:]; whatever the
    interleaving of their statements, a menu thread that has left its block
    holds a copy equal to [old] or equal to [new]. *)
Theorem readers_see_old_or_new (old new : State) (locals : list State)
    (c : Config) (i : nat) (l : State) :
  rtc (step new) (start old locals) c →
  readers c !! i = Some (Past, l) →
  l = old ∨ l = new.
Proof.
  intros Hrun Hi. apply inv_reachable in Hrun as [_ Hr].
  by destruct (Hr i _ Hi) as [_ Hl].
Qed.

(** Two runs: the refresh thread first and a menu thread after it, and the
    other way round. *)
Ltac run_step rule := eapply rtc_l; [rule; reflexivity|]; cbn.

Lemma run_writer_then_reader (old new l0 : State) :
  rtc (step new) (start old [l0])
    {| shared := new; lock := None; writer := Past; readers := [(Past, new)] |}.
Proof.
  destruct old, new, l0. unfold start. cbn.
  run_step ltac:(apply writer_acquire).
  do 7 run_step ltac:(eapply writer_assign).
  run_step ltac:(apply writer_release).
  run_step ltac:(eapply (reader_acquire _ _ 0%nat)).
  do 7 run_step ltac:(eapply (reader_copy _ _ 0%nat)).
  run_step ltac:(eapply (reader_release _ _ 0%nat)).
  apply rtc_refl.
Qed.

Lemma run_reader_then_writer (old new l0 : State) :
  rtc (step new) (start old [l0])
    {| shared := new; lock := None; writer := Past; readers := [(Past, old)] |}.
Proof.
  destruct old, new, l0. unfold start. cbn.
  run_step ltac:(eapply (reader_acquire _ _ 0%nat)).
  do 7 run_step ltac:(eapply (reader_copy _ _ 0%nat)).
  run_step ltac:(eapply (reader_release _ _ 0%nat)).
  run_step ltac:(apply writer_acquire).
  do 7 run_step ltac:(eapply writer_assign).
  run_step ltac:(apply writer_release).
  apply rtc_refl.
Qed.

Lemma readers_see_old_or_new_witness :
  rtc (step state1) (start state0 [state0])
    {| shared := state1; lock := None; writer := Past;
       readers := [(Past, state1)] |}
  ∧ (state1 = state0 ∨ state1 = state1).
Proof.
  split; [apply run_writer_then_reader|].
  exact (readers_see_old_or_new state0 state1 [state0] _ 0%nat state1
           (run_writer_then_reader state0 state1 state0) eq_refl).
Defined.

(** * Further properties of the code *)

(** ** Mapping store: round trip and composition *)

Lemma save_map_no_process (m : gmap string Z) (w : World) :
  no_process w (save_map m w).2.
Proof.
  unfold no_process, save_map, try_except, open_w, json_dump.
  rewrite !run_bind, fs_op_run.
  destruct (hd false (fs_faults w)); simpl; [done|].
  rewrite !run_bind, fs_op_run; simpl.
  by destruct (hd false (tail (fs_faults w))).
Qed.

(** X1. Whatever table is saved, when the two file operations of
    [save_map] and the two of [load_map] succeed, [load_map] reads the same
    table back. *)
Theorem save_then_load `{PyBuiltins} (m : gmap string Z) (w : World) :
  storage_ok 4 w → (load_map (save_map m w).2).1 = Ok m.
Proof.
  intros Hok. rewrite load_map_run. unfold loaded.
  rewrite save_map_faults, save_map_file. unfold storage_ok in Hok.
  destruct (fs_faults w) as [|b1 [|b2 [|b3 [|b4 q]]]]; simpl in *;
    repeat match goal with
           | Hq : Forall _ (_ :: _) |- _ => apply Forall_cons in Hq as [-> Hq]
           end; simpl;
    unfold dump_map; by rewrite load_items_dump_map.
Qed.

Lemma save_then_load_witness :
  storage_ok 4 world_mapped
  ∧ (load_map (H:=ascii_builtins)
       (save_map (<["DEL|A0F1|X7" := 3]> table_b) world_mapped).2).1
    = Ok (<["DEL|A0F1|X7" := 3]> table_b).
Proof.
  assert (storage_ok 4 world_mapped) as Hok by constructor.
  split; [exact Hok|].
  exact (save_then_load (H:=ascii_builtins) _ world_mapped Hok).
Defined.

Lemma set_mapping_state (fp : string) (idx : Z) (w : World) :
  state (set_mapping fp idx w).2
  = with_idx_map (<[fp := idx]> (idx_map (state w))) (state w).
Proof.
  rewrite set_mapping_run. cbn [snd].
  pose proof (save_map_frame (<[fp:=idx]> (idx_map (state w)))
    (set_state (with_idx_map (<[fp:=idx]> (idx_map (state w))) (state w)) w))
    as [Hst _].
  change (state (set_threads _ ?x)) with (state x). by rewrite Hst.
Qed.

(** X2. [set_mapping] changes nothing of the cache but the mapping table,
    asks nothing of PowerShell or SetDpi.exe and does not rebuild the menu:
    the thread that runs it only touches the cache and the file. *)
Theorem set_mapping_only_touches_mapping (fp : string) (idx : Z) (w : World) :
  state (set_mapping fp idx w).2
  = {| outs := outs (state w); ins := ins (state w); defs := defs (state w);
       mons := mons (state w); dpi := dpi (state w);
       idx_map := <[fp := idx]> (idx_map (state w));
       last_update := last_update (state w) |}
  ∧ no_process w (set_mapping fp idx w).2.
Proof.
  split; [by rewrite set_mapping_state|].
  rewrite set_mapping_run. cbn [snd].
  exact (save_map_no_process (<[fp:=idx]> (idx_map (state w)))
    (set_state (with_idx_map (<[fp:=idx]> (idx_map (state w))) (state w)) w)).
Qed.



(** ** Audio endpoints *)

Section Endpoints.
Context `{PyBuiltins}.

Lemma py_eq_int_0_1 (df : json) : py_eq_int df 0 = true → py_eq_int df 1 = false.
Proof.
  destruct df as [|[]|z|[| |num den]| | |]; simpl; try done.
  - intros Hz%Z.eqb_eq. subst. done.
  - intros Hz%Z.eqb_eq. subst. apply Z.eqb_neq. lia.
Qed.

(** One turn of the list comprehension of
    [list_devices_by_type_from_raw], for a device that is a [dict]. *)
Lemma list_devices_loop_cons (ty : string) (kvs : list (string * json))
    (ds : list json) (l : list (json * json)) :
  list_devices_loop ty (JObj kvs :: ds) = Ok l →
  ∃ rest, list_devices_loop ty ds = Ok rest
    ∧ ((l = rest
        ∧ (truthy (default JNull (dict_get kvs "Name")) = false
           ∨ ∃ dev, default (JObj []) (dict_get kvs "Device") = JObj dev
               ∧ (String.eqb ty "playback"
                    && py_eq_int (default JNull (dict_get dev "DataFlow")) 0
                  || String.eqb ty "recording"
                    && py_eq_int (default JNull (dict_get dev "DataFlow")) 1)
                 = false))
       ∨ (l = (default (JStr "") (dict_get kvs "Name"),
               default (JStr "") (dict_get kvs "ID")) :: rest
          ∧ truthy (default JNull (dict_get kvs "Name")) = true
          ∧ ∃ dev, default (JObj []) (dict_get kvs "Device") = JObj dev
              ∧ (String.eqb ty "playback"
                   && py_eq_int (default JNull (dict_get dev "DataFlow")) 0
                 || String.eqb ty "recording"
                   && py_eq_int (default JNull (dict_get dev "DataFlow")) 1)
                = true)).
Proof.
  cbn [list_devices_loop py_get mbind result_bind].
  destruct (truthy (default JNull (dict_get kvs "Name"))) eqn:Hname.
  - unfold is_type. cbn [py_get mbind result_bind].
    destruct (default (JObj []) (dict_get kvs "Device")) as [| | | | | |dev] eqn:Hdev;
      try done.
    cbn [py_get mbind result_bind].
    destruct (_ || _) eqn:Hflow.
    + destruct (list_devices_loop ty ds) as [rest|e]; [|done].
      intros [= <-]. exists rest. split; [done|]. right.
      split; [done|]. split; [done|]. by exists dev.
    + destruct (list_devices_loop ty ds) as [rest|e]; [|done].
      intros [= <-]. exists rest. split; [done|]. left.
      split; [done|]. right. by exists dev.
  - destruct (list_devices_loop ty ds) as [rest|e]; [|done].
    intros [= <-]. exists rest. split; [done|]. left. split; [done|]. by left.
Qed.

Lemma list_devices_loop_dicts (ty : string) (ds : list json) (l : list (json * json)) :
  list_devices_loop ty ds = Ok l → Forall (λ d, is_dict d = true) ds.
Proof.
  revert l. induction ds as [|d ds IH]; intros l Hl; [done|].
  destruct d as [| | | | | |kvs]; try done.
  apply list_devices_loop_cons in Hl as (rest & Hrest & _).
  constructor; [done|by eapply IH].
Qed.

(** X4. When [list_devices_by_type_from_raw] returns for a list of
    devices, its result holds exactly the (Name, ID) pairs of the devices
    that have a non-empty Name and whose [Device.DataFlow] equals 0 (for
    "playback") or 1 (for "recording"), a missing ID being the empty
    string; it is never longer than the device list. *)
Theorem list_devices_by_type_selects (ty : string) (ds : list json)
    (l : list (json * json)) :
  list_devices_by_type_from_raw (JArr ds) ty = Ok l →
  (∀ n i, (n, i) ∈ l ↔
     ∃ kvs dev, JObj kvs ∈ ds
       ∧ truthy (default JNull (dict_get kvs "Name")) = true
       ∧ n = default (JStr "") (dict_get kvs "Name")
       ∧ i = default (JStr "") (dict_get kvs "ID")
       ∧ default (JObj []) (dict_get kvs "Device") = JObj dev
       ∧ (String.eqb ty "playback"
            && py_eq_int (default JNull (dict_get dev "DataFlow")) 0
          || String.eqb ty "recording"
            && py_eq_int (default JNull (dict_get dev "DataFlow")) 1) = true)
  ∧ (length l ≤ length ds)%nat.
Proof.
  unfold list_devices_by_type_from_raw. cbn [py_iter mbind result_bind].
  revert l. induction ds as [|d ds IH]; intros l Hl.
  - injection Hl as <-. split; [|done]. intros n i. split.
    + by intros ?%elem_of_nil.
    + by intros (kvs & dev & ?%elem_of_nil & _).
  - pose proof (list_devices_loop_dicts _ _ _ Hl) as Hd.
    apply Forall_cons in Hd as [Hd _].
    destruct d as [| | | | | |kvs]; try done.
    apply list_devices_loop_cons in Hl as (rest & Hrest & Hcase).
    destruct (IH rest Hrest) as [IHin IHlen].
    destruct Hcase as [[-> Hskip]|(-> & Hname & dev & Hdev & Hflow)].
    + split; [|simpl; lia]. intros n i. rewrite IHin. split.
      * intros (kvs' & dev' & Hin & ?). exists kvs', dev'. split; [by right|done].
      * intros (kvs' & dev' & Hin & Hn & -> & -> & Hdev' & Hflow').
        apply elem_of_cons in Hin as [[= ->]|Hin].
        -- destruct Hskip as [Hskip|(dev & Hdev & Hflow)]; [congruence|].
           rewrite Hdev in Hdev'. injection Hdev' as <-. congruence.
        -- by exists kvs', dev'.
    + split; [|simpl; lia]. intros n i. rewrite elem_of_cons, IHin. split.
      * intros [[= -> ->]|(kvs' & dev' & Hin & ?)].
        -- exists kvs, dev. split; [left|done].
        -- exists kvs', dev'. split; [by right|done].
      * intros (kvs' & dev' & Hin & Hn & -> & -> & Hdev' & Hflow').
        apply elem_of_cons in Hin as [[= ->]|Hin]; [by left|].
        right. by exists kvs', dev'.
Qed.

Lemma list_devices_by_type_selects_witness :
  let ds := [speaker; microphone] in
  list_devices_by_type_from_raw (JArr ds) "playback"
  = Ok [(JStr "Speakers", JStr "{0.0.0.00000000}.{a1}")]
  ∧ ((JStr "Microphone", JStr "{0.0.1.00000000}.{b2}")
     ∉ [(JStr "Speakers", JStr "{0.0.0.00000000}.{a1}")]).
Proof.
  cbv zeta. split; [reflexivity|].
  intros Hin.
  apply (proj1 (list_devices_by_type_selects "playback" [speaker; microphone]
                  _ eq_refl) (JStr "Microphone") (JStr "{0.0.1.00000000}.{b2}"))
    in Hin as (kvs & dev & Hin & _ & Hn & _ & Hdev & Hflow).
  apply elem_of_cons in Hin as [[= ->]|Hin]; [discriminate Hn|].
  apply elem_of_cons in Hin as [[= ->]|Hin]; [|by apply elem_of_nil in Hin].
  injection Hdev as <-. discriminate Hflow.
Defined.

End Endpoints.

Section EndpointLists.
Context `{PyBuiltins}.

Lemma list_devices_loop_any (ty ty' : string) (ds : list json)
    (l : list (json * json)) :
  list_devices_loop ty ds = Ok l → ∃ l', list_devices_loop ty' ds = Ok l'.
Proof.
  revert l. induction ds as [|d ds IH]; intros l Hl; [by eexists|].
  pose proof (list_devices_loop_dicts _ _ _ Hl) as Hd.
  apply Forall_cons in Hd as [Hd _].
  destruct d as [| | | | | |kvs]; try done.
  apply list_devices_loop_cons in Hl as (rest & Hrest & Hcase).
  destruct (IH rest Hrest) as [rest' Hrest'].
  cbn [list_devices_loop py_get mbind result_bind].
  destruct (truthy (default JNull (dict_get kvs "Name"))) eqn:Hname.
  - assert (∃ dev, default (JObj []) (dict_get kvs "Device") = JObj dev)
      as [dev Hdev].
    { destruct Hcase as [[_ [?|(dev & ? & _)]]|(_ & _ & dev & ? & _)];
        [done|by exists dev|by exists dev]. }
    unfold is_type. cbn [py_get mbind result_bind]. rewrite Hdev.
    cbn [py_get mbind result_bind]. rewrite Hrest'.
    destruct (_ || _); by eexists.
  - rewrite Hrest'. by eexists.
Qed.

Lemma list_devices_loop_split (ds : list json) (lp lr : list (json * json)) :
  list_devices_loop "playback" ds = Ok lp →
  list_devices_loop "recording" ds = Ok lr →
  (length lp + length lr ≤ length ds)%nat.
Proof.
  revert lp lr. induction ds as [|d ds IH]; intros lp lr Hp Hr.
  - injection Hp as <-. injection Hr as <-. done.
  - pose proof (list_devices_loop_dicts _ _ _ Hp) as Hd.
    apply Forall_cons in Hd as [Hd _].
    destruct d as [| | | | | |kvs]; try done.
    apply list_devices_loop_cons in Hp as (rp & Hrp & Hcp).
    apply list_devices_loop_cons in Hr as (rr & Hrr & Hcr).
    specialize (IH rp rr Hrp Hrr).
    destruct Hcp as [[-> _]|(-> & _ & dev & Hdev & Hfp)];
      destruct Hcr as [[-> _]|(-> & _ & dev' & Hdev' & Hfr)]; simpl; try lia.
    rewrite Hdev in Hdev'. injection Hdev' as <-.
    simpl in Hfp, Hfr. rewrite orb_false_r in Hfp.
    by rewrite (py_eq_int_0_1 _ Hfp) in Hfr.
Qed.

Lemma list_devices_loop_other (ty : string) (ds : list json)
    (l : list (json * json)) :
  ty ≠ "playback" → ty ≠ "recording" →
  list_devices_loop ty ds = Ok l → l = [].
Proof.
  intros Hp Hr. apply String.eqb_neq in Hp, Hr.
  revert l. induction ds as [|d ds IH]; intros l Hl; [by injection Hl|].
  pose proof (list_devices_loop_dicts _ _ _ Hl) as Hd.
  apply Forall_cons in Hd as [Hd _].
  destruct d as [| | | | | |kvs]; try done.
  apply list_devices_loop_cons in Hl as (rest & Hrest & Hcase).
  destruct Hcase as [[-> _]|(_ & _ & dev & _ & Hflow)]; [by apply IH|].
  by rewrite Hp, Hr in Hflow.
Qed.

(** X5. Over one device list, [list_devices_by_type_from_raw] returns for
    "playback" exactly when it returns for "recording" (it raises on the
    shape of a device, not on the type asked for); no device is listed both
    as playback and as recording, so the two lists together are no longer
    than the device list; and any other type gives the empty list. *)
Theorem endpoints_playback_or_recording (ds : list json) :
  ((∃ lp, list_devices_by_type_from_raw (JArr ds) "playback" = Ok lp)
   ↔ (∃ lr, list_devices_by_type_from_raw (JArr ds) "recording" = Ok lr))
  ∧ (∀ lp lr,
       list_devices_by_type_from_raw (JArr ds) "playback" = Ok lp →
       list_devices_by_type_from_raw (JArr ds) "recording" = Ok lr →
       (length lp + length lr ≤ length ds)%nat)
  ∧ (∀ ty l, ty ≠ "playback" → ty ≠ "recording" →
       list_devices_by_type_from_raw (JArr ds) ty = Ok l → l = []).
Proof.
  unfold list_devices_by_type_from_raw. cbn [py_iter mbind result_bind].
  split; [split; intros [l Hl]; by eapply list_devices_loop_any|].
  split; [apply list_devices_loop_split|].
  intros ty l. apply list_devices_loop_other.
Qed.

Lemma endpoints_playback_or_recording_witness :
  list_devices_by_type_from_raw (JArr [speaker; microphone]) "playback"
  = Ok [(JStr "Speakers", JStr "{0.0.0.00000000}.{a1}")]
  ∧ ∃ lr, list_devices_by_type_from_raw (JArr [speaker; microphone]) "recording"
          = Ok lr
          ∧ (1 + length lr ≤ 2)%nat.
Proof.
  split; [reflexivity|].
  destruct (endpoints_playback_or_recording [speaker; microphone])
    as (Hboth & Hlen & _).
  destruct (proj1 Hboth (ex_intro _ _ eq_refl)) as [lr Hlr].
  exists lr. split; [exact Hlr|].
  exact (Hlen _ lr eq_refl Hlr).
Defined.

(** X6. [list_audio_devices] raises only when PowerShell could not be
    run. Otherwise it returns a value that is not a [dict]: the empty list
    when nothing was printed or the text is not JSON, and the one-element
    list of the object when the text is a single JSON object (one endpoint).
    It runs exactly one PowerShell script. *)
Theorem list_audio_devices_guarded (w : World) :
  launched (list_audio_devices w).2
  = launched w ++ [PowerShell GetAudioDeviceList]
  ∧ match hd (Ok quiet) (ps_out w) with
    | Raise e => (list_audio_devices w).1 = Raise e
    | Ok cp =>
        ∃ v, (list_audio_devices w).1 = Ok v
          ∧ is_dict v = false
          ∧ (stdout cp = "" ∨ stdout_json cp = None → v = JArr [])
          ∧ (∀ kvs, stdout cp ≠ "" → stdout_json cp = Some (JObj kvs) →
               v = JArr [JObj kvs])
    end.
Proof.
  rewrite list_audio_devices_run. split; [done|]. cbn [fst].
  destruct (hd (Ok quiet) (ps_out w)) as [cp|e]; [|done].
  exists (parse_audio cp). split; [done|]. split; [|split].
  - unfold parse_audio.
    destruct (if nonempty (stdout cp) then json_loads cp else Ok (JArr []))
      as [data|e]; [|done].
    destruct (is_dict data) eqn:Hd; [done|].
    unfold py_or. by destruct (truthy data).
  - apply parse_audio_unusable.
  - intros kvs Hout Hjson. unfold parse_audio, json_loads, nonempty.
    apply String.eqb_neq in Hout. by rewrite Hout, Hjson.
Qed.

Lemma list_audio_devices_guarded_witness :
  ∃ v, (list_audio_devices (world_audio (printed_json speaker))).1 = Ok v
       ∧ v = JArr [speaker].
Proof.
  destruct (list_audio_devices_guarded (world_audio (printed_json speaker)))
    as [_ (v & Hv & _ & _ & Hone)].
  exists v. split; [exact Hv|].
  apply (Hone [("Name", JStr "Speakers"); ("ID", JStr "{0.0.0.00000000}.{a1}");
               ("Device", JObj [("DataFlow", JInt 0)])]); [discriminate|reflexivity].
Defined.

(** X7. When [get_default_ids] returns, it has run the four
    [Get-AudioDevice] queries in order, its result has exactly the keys
    output, output_comm, input and input_comm, and no id in it is the empty
    string: an empty answer is kept as [None]. *)
Theorem get_default_ids_keys (w w' : World) (d : gmap string (option string)) :
  get_default_ids w = (Ok d, w') →
  dom d = {["output"; "output_comm"; "input"; "input_comm"]}
  ∧ (∀ k s, d !! k = Some (Some s) → s ≠ "")
  ∧ launched w' = launched w
      ++ [PowerShell (GetAudioDeviceID "-Playback");
          PowerShell (GetAudioDeviceID "-PlaybackCommunication");
          PowerShell (GetAudioDeviceID "-Recording");
          PowerShell (GetAudioDeviceID "-RecordingCommunication")].
Proof.
  intros Hrun. pose proof (get_default_ids_world _ _ _ Hrun) as ->.
  split; [|split; [|done]].
  - revert Hrun. unfold get_default_ids. simpl.
    repeat (rewrite !run_bind, run_ps_run;
            match goal with
            | |- context [hd (Ok quiet) (ps_out ?x)] =>
                destruct (hd (Ok quiet) (ps_out x)); [|discriminate]
            end; rewrite ?run_ret).
    intros [= <- _]. rewrite !dom_insert_L, dom_empty_L. set_solver.
  - revert Hrun. unfold get_default_ids. simpl.
    repeat (rewrite !run_bind, run_ps_run;
            match goal with
            | |- context [hd (Ok quiet) (ps_out ?x)] =>
                destruct (hd (Ok quiet) (ps_out x)); [|discriminate]
            end; rewrite ?run_ret).
    intros [= <- _] k s Hk.
    repeat (apply lookup_insert_Some in Hk as [[_ Hk]|[_ Hk]];
            [apply or_none_Some in Hk as [_ Hne]; by destruct s|]).
    by rewrite lookup_empty in Hk.
Qed.

End EndpointLists.

Lemma get_default_ids_keys_witness :
  get_default_ids (H:=ascii_builtins) world0
  = (Ok (ok_or ∅ (get_default_ids (H:=ascii_builtins) world0).1),
     (get_default_ids (H:=ascii_builtins) world0).2)
  ∧ dom (ok_or ∅ (get_default_ids (H:=ascii_builtins) world0).1)
    = {["output"; "output_comm"; "input"; "input_comm"]}.
Proof.
  assert (get_default_ids (H:=ascii_builtins) world0
          = (Ok (ok_or ∅ (get_default_ids (H:=ascii_builtins) world0).1),
             (get_default_ids (H:=ascii_builtins) world0).2)) as Hrun
    by (vm_compute; reflexivity).
  split; [exact Hrun|].
  exact (proj1 (get_default_ids_keys (H:=ascii_builtins) world0 _ _ Hrun)).
Defined.

(** ** Handlers at work *)

(** X8. The work of a set-audio handler: with an empty endpoint id nothing
    is asked of PowerShell and the work returns normally; otherwise exactly
    one [Set-AudioDevice] is run for that id, with [-DefaultOnly] for the
    role "console", [-CommunicationOnly] for "communications" and no flag
    (both roles) for any other role. *)
Theorem set_audio_work_launches (device_id : json) (role : string) (w : World) :
  (truthy device_id = false →
     launched (set_audio_work device_id role w).2 = launched w
     ∧ ps_out (set_audio_work device_id role w).2 = ps_out w
     ∧ (set_audio_work device_id role w).1 = Ok ())
  ∧ (truthy device_id = true →
       ∃ flag,
         launched (set_audio_work device_id role w).2
         = launched w ++ [PowerShell (SetAudioDevice device_id flag)]
         ∧ (role = "console" → flag = "-DefaultOnly")
         ∧ (role = "communications" → flag = "-CommunicationOnly")
         ∧ (role ≠ "console" → role ≠ "communications" → flag = "")).
Proof.
  unfold set_audio_work, try_finally, set_default_device. split; intros ->; simpl.
  - done.
  - rewrite run_bind, run_ps_run.
    eexists. split.
    + by destruct (hd (Ok quiet) (ps_out w)).
    + split; [by intros ->|]. split; [by intros ->|].
      intros Hc%String.eqb_neq Hm%String.eqb_neq. by rewrite Hc, Hm.
Qed.

Lemma set_audio_work_launches_witness :
  truthy (JStr "{0.0.0.00000000}.{a1}") = true
  ∧ ∃ flag,
      launched (set_audio_work (JStr "{0.0.0.00000000}.{a1}") "communications"
                  world0).2
      = [PowerShell (SetAudioDevice (JStr "{0.0.0.00000000}.{a1}") flag)]
      ∧ flag = "-CommunicationOnly".
Proof.
  split; [reflexivity|].
  destruct (proj2 (set_audio_work_launches (JStr "{0.0.0.00000000}.{a1}")
                     "communications" world0) eq_refl)
    as (flag & Hl & _ & Hcomm & _).
  exists flag. split; [exact Hl|]. apply Hcomm. reflexivity.
Defined.

(** X9. The work of a set-DPI handler: when SetDpi.exe is not installed
    nothing is run; when it is, SetDpi.exe is run exactly once, with the
    percentage and the monitor index, except that index 0 is not passed on
    (SetDpi.exe then acts on its default monitor). *)
Theorem set_dpi_work_launches (pct idx : Z) (w : World) :
  (setdpi_isfile w = false →
     launched (set_dpi_work pct idx w).2 = launched w
     ∧ setdpi_out (set_dpi_work pct idx w).2 = setdpi_out w
     ∧ (set_dpi_work pct idx w).1 = Ok ())
  ∧ (setdpi_isfile w = true → idx ≠ 0 →
       launched (set_dpi_work pct idx w).2
       = launched w ++ [SetDpiSet pct (Some idx)])
  ∧ (setdpi_isfile w = true → idx = 0 →
       launched (set_dpi_work pct idx w).2 = launched w ++ [SetDpiSet pct None]).
Proof.
  unfold set_dpi_work, try_finally, set_dpi.
  split; [|split].
  - by intros ->.
  - intros -> Hne%Z.eqb_neq. simpl. rewrite Hne, run_bind. unfold run_setdpi.
    by destruct (setdpi_out w) as [|[out|e] q].
  - intros -> ->. simpl. rewrite run_bind. unfold run_setdpi.
    by destruct (setdpi_out w) as [|[out|e] q].
Qed.

Lemma set_dpi_work_launches_witness :
  setdpi_isfile world_setdpi = true ∧ (2 : Z) ≠ 0
  ∧ launched (set_dpi_work 150 2 world_setdpi).2 = [SetDpiSet 150 (Some 2)].
Proof.
  split; [reflexivity|]. split; [discriminate|].
  destruct (set_dpi_work_launches 150 2 world_setdpi) as (_ & Hrun & _).
  apply Hrun; [reflexivity|discriminate].
Defined.

(** X10. [get_dpi_value] returns [None] without running anything when
    SetDpi.exe is not installed; when it is, it runs [SetDpi.exe value]
    once for the index it was given (index 0 included), and a value it
    returns is the stripped output and is never the empty string. *)
Theorem get_dpi_value_cases `{PyBuiltins} (monitor : Z) (w : World) :
  (setdpi_isfile w = false → get_dpi_value monitor w = (Ok None, w))
  ∧ (setdpi_isfile w = true →
       launched (get_dpi_value monitor w).2 = launched w ++ [SetDpiValue monitor])
  ∧ (∀ v, (get_dpi_value monitor w).1 = Ok (Some v) →
       v ≠ ""
       ∧ ∃ out, hd (Ok "") (setdpi_out w) = Ok out ∧ v = str_strip out).
Proof.
  rewrite get_dpi_value_run. split; [by intros ->|]. split; [by intros ->|].
  intros v. destruct (setdpi_isfile w); [|done]. cbn [fst].
  destruct (hd (Ok "") (setdpi_out w)) as [out|e]; [|done].
  intros [= Hv]. apply or_none_Some in Hv as [-> Hne]. split.
  - intros Heq. by rewrite Heq in Hne.
  - by exists out.
Qed.

Lemma get_dpi_value_cases_witness :
  (get_dpi_value (H:=ascii_builtins) 2 world_setdpi).1 = Ok (Some "150")
  ∧ "150" ≠ "".
Proof.
  split; [reflexivity|].
  destruct (get_dpi_value_cases (H:=ascii_builtins) 2 world_setdpi)
    as (_ & _ & Hv).
  exact (proj1 (Hv "150" eq_refl)).
Defined.

(** ** Monitors *)

Section Monitors.
Context `{PyBuiltins}.

Lemma monitors_loop_raise (js : list json) (j : json) (e : exn) :
  j ∈ js → monitor_of_json j = Raise e → ∃ e', monitors_loop js = Raise e'.
Proof.
  intros Hin Hj. induction js as [|j' js IH]; [by apply elem_of_nil in Hin|].
  cbn [monitors_loop]. apply elem_of_cons in Hin as [<-|Hin].
  - rewrite Hj. by eexists.
  - destruct (monitor_of_json j') as [m|e0]; [|by eexists].
    destruct (IH Hin) as [e' ->]. by eexists.
Qed.

Lemma monitors_loop_ok (js : list json) :
  Forall (λ j, ∃ m, monitor_of_json j = Ok m) js →
  ∃ ms, monitors_loop js = Ok ms
        ∧ Forall2 (λ j m, monitor_of_json j = Ok m) js ms.
Proof.
  induction 1 as [|j js [m Hm] _ (ms & Hms & Hall)].
  - exists []. by split.
  - exists (m :: ms). cbn [monitors_loop]. rewrite Hm, Hms. split; [done|].
    by constructor.
Qed.

Lemma py_iter_or_list (js : list json) : py_iter (py_or (JArr js) (JArr [])) = Ok js.
Proof. by destruct js. Qed.

(** X11. [list_monitors] raises only when PowerShell could not be run.
    With nothing printed it returns no monitor; with text that is not JSON,
    or with a list in which any one entry cannot be converted, it returns
    the two stand-in monitors FAKE||1 and FAKE||2 (the entries that could be
    converted are dropped); with a list whose entries all convert it returns
    their monitors in order, and with a single JSON object the one monitor. *)
Theorem list_monitors_fallback (w : World) :
  match hd (Ok quiet) (ps_out w) with
  | Raise e => (list_monitors w).1 = Raise e
  | Ok cp =>
      ∃ ms, (list_monitors w).1 = Ok ms
        ∧ (stdout cp = "" → ms = [])
        ∧ (stdout cp ≠ "" → stdout_json cp = None →
             ms = [fake_monitor 1; fake_monitor 2])
        ∧ (∀ js j e, stdout cp ≠ "" → stdout_json cp = Some (JArr js) →
             j ∈ js → monitor_of_json j = Raise e →
             ms = [fake_monitor 1; fake_monitor 2])
        ∧ (∀ js, stdout cp ≠ "" → stdout_json cp = Some (JArr js) →
             Forall (λ j, ∃ m, monitor_of_json j = Ok m) js →
             Forall2 (λ j m, monitor_of_json j = Ok m) js ms)
        ∧ (∀ kvs m, stdout cp ≠ "" → stdout_json cp = Some (JObj kvs) →
             monitor_of_json (JObj kvs) = Ok m → ms = [m])
  end.
Proof.
  unfold list_monitors. rewrite run_bind, run_ps_run.
  destruct (hd (Ok quiet) (ps_out w)) as [cp|e]; [|done].
  unfold try_except, lift, json_loads, nonempty.
  destruct (String.eqb (stdout cp) "") eqn:Hout.
  - apply String.eqb_eq in Hout. cbn. exists [].
    split; [done|]. repeat split; intros; congruence.
  - apply String.eqb_neq in Hout. cbn [negb].
    destruct (stdout_json cp) as [[| | | | |js|kvs]|] eqn:Hjson;
      cbn [mbind result_bind is_dict];
      try (match goal with
           | |- context [match ?r with Ok _ => _ | Raise _ => _ end] =>
               destruct r
           end;
           eexists; (split; [reflexivity|]);
           repeat split; intros; congruence).
    + rewrite py_iter_or_list. cbn [mbind result_bind].
      destruct (monitors_loop js) as [ms|e] eqn:Hloop.
      * exists ms. split; [done|]. split; [done|]. split; [done|].
        split; [|split; [|done]].
        -- intros js' j e _ [= <-] Hin Hj.
           destruct (monitors_loop_raise _ _ _ Hin Hj) as [e' He'].
           congruence.
        -- intros js' _ [= <-] Hall.
           destruct (monitors_loop_ok _ Hall) as (ms' & Hms' & Hall').
           congruence.
      * eexists. split; [reflexivity|]. split; [done|]. split; [done|].
        split; [done|]. split; [|done].
        intros js' _ [= <-] Hall.
        destruct (monitors_loop_ok _ Hall) as (ms' & Hms' & _). congruence.
    + cbn [py_or truthy py_iter mbind result_bind monitors_loop].
      destruct (monitor_of_json (JObj kvs)) as [m|e] eqn:Hm.
      * exists [m]. split; [done|]. repeat split; try done.
        intros kvs' m' _ [= <-] Hm'. congruence.
      * eexists. split; [reflexivity|]. repeat split; try done.
        intros kvs' m' _ [= <-] Hm'. congruence.
    + eexists. split; [reflexivity|]. repeat split; intros; congruence.
Qed.

(** X12. The fingerprint [list_monitors] gives a monitor depends only on
    its Manufacturer, Product and Serial: two entries that agree on these
    three get the same fingerprint, whatever their Index and Name. *)
Theorem fingerprint_ignores_index_and_name (kvs1 kvs2 : list (string * json))
    (m1 m2 : Monitor) :
  monitor_of_json (JObj kvs1) = Ok m1 →
  monitor_of_json (JObj kvs2) = Ok m2 →
  dict_get kvs1 "Manufacturer" = dict_get kvs2 "Manufacturer" →
  dict_get kvs1 "Product" = dict_get kvs2 "Product" →
  dict_get kvs1 "Serial" = dict_get kvs2 "Serial" →
  mon_fp m1 = mon_fp m2.
Proof.
  unfold monitor_of_json. cbn [py_get mbind result_bind].
  intros H1 H2 Hman Hprod Hser. rewrite <- Hman, <- Hprod, <- Hser in H2.
  destruct (py_int (py_or (default (JInt 0) (dict_get kvs1 "Index")) (JInt 0)));
    [|done].
  destruct (py_int (py_or (default (JInt 0) (dict_get kvs2 "Index")) (JInt 0)));
    [|done].
  cbn [mbind result_bind] in H1, H2.
  destruct (py_strip (py_or (default JNull (dict_get kvs1 "Manufacturer")) (JStr "")));
    [|done].
  cbn [mbind result_bind] in H1, H2.
  destruct (py_strip (py_or (default JNull (dict_get kvs1 "Product")) (JStr "")));
    [|done].
  cbn [mbind result_bind] in H1, H2.
  destruct (py_strip (py_or (default JNull (dict_get kvs1 "Serial")) (JStr "NOSN")));
    [|done].
  cbn [mbind result_bind] in H1, H2.
  injection H1 as <-. injection H2 as <-. done.
Qed.

End Monitors.

Lemma list_monitors_fallback_witness :
  ∃ ms, (list_monitors (H:=ascii_builtins)
           (world_monitors (printed_json (JArr [monitor_a; monitor_bad_index])))).1
        = Ok ms
        ∧ ms = [fake_monitor 1; fake_monitor 2].
Proof.
  destruct (list_monitors_fallback (H:=ascii_builtins)
              (world_monitors (printed_json (JArr [monitor_a; monitor_bad_index]))))
    as (ms & Hms & _ & _ & Hbad & _).
  exists ms. split; [exact Hms|].
  apply (Hbad [monitor_a; monitor_bad_index] monitor_bad_index ValueError).
  - discriminate.
  - reflexivity.
  - apply list_elem_of_further, list_elem_of_here.
  - reflexivity.
Defined.

Lemma fingerprint_ignores_index_and_name_witness :
  ∃ m1 m2, monitor_of_json (H:=ascii_builtins) monitor_a = Ok m1
           ∧ monitor_of_json (H:=ascii_builtins) monitor_a_moved = Ok m2
           ∧ mon_index m1 ≠ mon_index m2
           ∧ mon_fp m1 = mon_fp m2.
Proof.
  eexists _, _. split; [reflexivity|]. split; [reflexivity|].
  split; [discriminate|].
  apply (fingerprint_ignores_index_and_name (H:=ascii_builtins)
           [("Index", JInt 1); ("Name", JStr "DELL U2720Q");
            ("Manufacturer", JStr "DEL"); ("Product", JStr "A0F1");
            ("Serial", JStr "X7")]
           [("Index", JInt 3); ("Manufacturer", JStr "DEL");
            ("Product", JStr "A0F1"); ("Serial", JStr "X7")]);
    reflexivity.
Defined.

(** ** What a refresh pass leaves alone *)

Lemma preserves_bind {A B X} (proj : World → X) (c : M A) (f : A → M B) :
  preserves proj c → (∀ a, preserves proj (f a)) → preserves proj (c ≫= f).
Proof.
  intros Hc Hf w. rewrite run_bind. specialize (Hc w).
  destruct (c w) as [[a|e] w1]; simpl in *; [|done]. by rewrite Hf.
Qed.

Lemma preserves_for_each {A B X} (proj : World → X) (body : B → A → M B)
    (xs : list A) (acc : B) :
  (∀ b a, preserves proj (body b a)) → preserves proj (for_each body xs acc).
Proof.
  intros Hbody. revert acc. induction xs as [|x xs IH]; intros acc; [done|].
  cbn [for_each]. apply preserves_bind; [apply Hbody|apply IH].
Qed.

Lemma preserves_after_ps {X} (proj : World → X) (ls : list ps_script) (w : World) :
  untouched_by_queries proj → proj (after_ps ls w) = proj w.
Proof. intros (Hl & Hp & _). unfold after_ps. by rewrite Hl, Hp. Qed.

Section PassFrame.
Context `{PyBuiltins}.
Context {X : Type} (proj : World → X) (Hproj : untouched_by_queries proj).

Lemma preserves_list_audio_devices : preserves proj list_audio_devices.
Proof. intros w. rewrite list_audio_devices_world. by apply preserves_after_ps. Qed.

Lemma preserves_list_monitors : preserves proj list_monitors.
Proof. intros w. rewrite list_monitors_world. by apply preserves_after_ps. Qed.

Lemma preserves_get_default_ids : preserves proj get_default_ids.
Proof.
  apply preserves_for_each. intros out [k p].
  apply preserves_bind; [|done].
  intros w. rewrite run_ps_run. by apply preserves_after_ps.
Qed.

Lemma preserves_load_map : preserves proj load_map.
Proof.
  intros w. destruct (load_map_world w) as [q ->].
  destruct Hproj as (_ & _ & _ & Hf). apply Hf.
Qed.

Lemma preserves_read_dpi im acc m : preserves proj (read_dpi im acc m).
Proof.
  intros w. rewrite read_dpi_run. destruct (setdpi_isfile w); [|done].
  destruct Hproj as (Hl & _ & Hs & _). cbn [snd]. by rewrite Hl, Hs.
Qed.

Lemma preserves_collect_state :
  (∀ s w, proj (set_state s w) = proj w) → preserves proj collect_state.
Proof.
  intros Hst. unfold collect_state.
  apply preserves_bind; [apply preserves_list_audio_devices|intros raw].
  apply preserves_bind; [done|intros o].
  apply preserves_bind; [done|intros i].
  apply preserves_bind; [apply preserves_get_default_ids|intros df].
  apply preserves_bind; [apply preserves_list_monitors|intros ms].
  apply preserves_bind; [apply preserves_load_map|intros im].
  apply preserves_bind.
  - apply preserves_for_each. intros. apply preserves_read_dpi.
  - intros d w. apply Hst.
Qed.

End PassFrame.

(** X13. Whether it completes or raises, a refresh pass leaves the mapping
    file as it is, starts no thread, prints nothing and does not rebuild the
    menu: it only runs its queries and, at the end, replaces the cache. *)
Theorem collect_state_frame `{PyBuiltins} (w : World) :
  map_file (collect_state w).2 = map_file w
  ∧ threads (collect_state w).2 = threads w
  ∧ printed (collect_state w).2 = printed w
  ∧ menu_updates (collect_state w).2 = menu_updates w
  ∧ update_menu_out (collect_state w).2 = update_menu_out w
  ∧ tray_icon (collect_state w).2 = tray_icon w.
Proof.
  repeat split;
    (apply preserves_collect_state; [by repeat split|done]).
Qed.

Section AfterSetMapping.
Context `{PyBuiltins}.

Lemma loaded_frame (w1 w2 : World) :
  fs_faults w1 = fs_faults w2 → map_file w1 = map_file w2 → loaded w1 = loaded w2.
Proof. unfold loaded. by intros -> ->. Qed.

Lemma loaded_after_set_mapping (fp : string) (n : Z) (w : World) :
  storage_ok 4 w →
  loaded (set_mapping fp n w).2 = <[fp := n]> (idx_map (state w)).
Proof.
  intros Hok. rewrite set_mapping_run. unfold loaded. simpl.
  rewrite save_map_faults, save_map_file. simpl.
  unfold storage_ok in Hok.
  destruct (fs_faults w) as [|b1 [|b2 [|b3 [|b4 q]]]]; simpl in *;
    repeat match goal with
           | Hq : Forall _ (_ :: _) |- _ => apply Forall_cons in Hq as [-> Hq]
           end; simpl;
    unfold dump_map; by rewrite load_items_dump_map.
Qed.

(** X14. After [set_mapping fp n], the file operations succeeding, a
    refresh pass that completes publishes the cached table with [fp] set to
    [n]; every monitor of the new snapshot with fingerprint [fp] then has
    effective index [n], and its scale is asked for at index [n]. *)
Theorem set_mapping_then_refresh (fp : string) (n : Z) (w w' : World) :
  storage_ok 4 w →
  collect_state (set_mapping fp n w).2 = (Ok (), w') →
  idx_map (state w') = <[fp := n]> (idx_map (state w))
  ∧ (∀ m, m ∈ mons (state w') → mon_fp m = fp →
       effective_index (idx_map (state w')) m = n
       ∧ (setdpi_isfile w = true → SetDpiValue n ∈ launched w')).
Proof.
  intros Hok Hrun.
  pose proof (collect_state_ok _ _ Hrun) as (q & w5 & _ & Hidx & _).
  rewrite (loaded_after_set_mapping fp n w Hok) in Hidx.
  split; [done|]. intros m Hm Hfp.
  assert (effective_index (idx_map (state w')) m = n) as Heff.
  { unfold effective_index. by rewrite Hidx, Hfp, lookup_insert_eq. }
  split; [done|]. intros Hfile.
  apply collect_state_dpi in Hrun as (Hl & _).
  rewrite Hl.
  assert (setdpi_isfile (set_mapping fp n w).2 = true) as ->.
  { rewrite set_mapping_run. cbn [snd].
    change (setdpi_isfile (set_threads _ ?x)) with (setdpi_isfile x).
    unfold save_map, try_except, open_w, json_dump.
    rewrite !run_bind, fs_op_run.
    destruct (hd false _); simpl; [done|].
    rewrite !run_bind, fs_op_run; simpl.
    by destruct (hd false _). }
  apply elem_of_app. right. apply elem_of_app. right.
  apply list_elem_of_fmap. exists m. split; [|done]. simpl. by rewrite Heff.
Qed.

(** X15. When [open(MAP_FILE, "w")] fails inside [set_mapping], the file
    keeps its contents and the entry lives in the cache only: the next
    refresh pass that completes publishes the table [load_map] reads from
    the unchanged file, so with no mapping file the published table is
    empty and the chosen entry is gone. *)
Theorem unsaved_mapping_is_reverted (fp : string) (n : Z) (w w' : World) :
  hd false (fs_faults w) = true →
  collect_state (set_mapping fp n w).2 = (Ok (), w') →
  idx_map (state (set_mapping fp n w).2) !! fp = Some n
  ∧ map_file w' = map_file w
  ∧ (load_map (set_fs_faults (tail (fs_faults w)) w)).1 = Ok (idx_map (state w'))
  ∧ (map_file w = Missing → idx_map (state w') = ∅).
Proof.
  intros Hfault Hrun.
  pose proof (collect_state_ok _ _ Hrun) as (q & w5 & _ & Hidx & _).
  assert (map_file (set_mapping fp n w).2 = map_file w) as Hfile.
  { rewrite set_mapping_run. cbn [snd].
    change (map_file (set_threads _ ?x)) with (map_file x).
    rewrite save_map_file. cbn [fs_faults set_state]. by rewrite Hfault. }
  assert (fs_faults (set_mapping fp n w).2 = tail (fs_faults w)) as Hfaults.
  { rewrite set_mapping_run. cbn [snd].
    change (fs_faults (set_threads _ ?x)) with (fs_faults x).
    rewrite save_map_faults. cbn [fs_faults set_state]. by rewrite Hfault. }
  rewrite (loaded_frame _ (set_fs_faults (tail (fs_faults w)) w)) in Hidx
    by (by rewrite ?Hfaults, ?Hfile).
  split; [by rewrite set_mapping_state; apply lookup_insert_eq|].
  split.
  - rewrite <- Hfile. replace w' with (collect_state (set_mapping fp n w).2).2
      by (by rewrite Hrun).
    apply preserves_collect_state; [by repeat split|done].
  - split; [by rewrite load_map_run, Hidx|].
    intros Hmiss. rewrite Hidx. unfold loaded.
    cbn [map_file fs_faults set_fs_faults]. rewrite Hmiss.
    by destruct (tail (fs_faults w)) as [|[] [|[] ?]].
Qed.

(** X16. The mapping a completed pass publishes is the table [load_map]
    reads from the file at that time, whatever the cache held before; with
    no mapping file it is empty, and every monitor's effective index is its
    enumeration index. *)
Theorem published_mapping_is_file (w w' : World) :
  collect_state w = (Ok (), w') →
  (load_map w).1 = Ok (idx_map (state w'))
  ∧ (map_file w = Missing →
       idx_map (state w') = ∅
       ∧ ∀ m, effective_index (idx_map (state w')) m = mon_index m).
Proof.
  intros Hrun. pose proof (collect_state_ok _ _ Hrun) as (q & w5 & _ & Hidx & _).
  split; [by rewrite load_map_run, Hidx|].
  intros Hmiss.
  assert (idx_map (state w') = ∅) as Hempty.
  { rewrite Hidx. unfold loaded. rewrite Hmiss.
    by destruct (fs_faults w) as [|[] [|[] ?]]. }
  split; [done|]. intros m. unfold effective_index.
  by rewrite Hempty, lookup_empty.
Qed.

Lemma collect_state_frame_aux (w : World) :
  menu_updates (collect_state w).2 = menu_updates w
  ∧ update_menu_out (collect_state w).2 = update_menu_out w
  ∧ tray_icon (collect_state w).2 = tray_icon w.
Proof.
  repeat split;
    (apply preserves_collect_state; [by repeat split|done]).
Qed.

(** X17. [_refresh_worker] touches the tray menu only after a pass that
    completed and when the tray icon exists; a pass that raises leaves the
    menu alone. It then updates the menu twice, once by assigning
    [tray_icon.menu] and once by the explicit [update_menu()]: not at all
    when the first update raises, once when the second one raises, and
    never more than twice. The cache it leaves is the one the pass left,
    also when updating the menu raises. *)
Theorem refresh_worker_menu (w : World) :
  state (_refresh_worker w).2 = state (collect_state w).2
  ∧ (∀ e, (collect_state w).1 = Raise e →
       menu_updates (_refresh_worker w).2 = menu_updates w
       ∧ update_menu_out (_refresh_worker w).2 = update_menu_out w)
  ∧ ((collect_state w).1 = Ok () →
       menu_updates (_refresh_worker w).2
       = if tray_icon w
         then match hd None (update_menu_out w),
                    hd None (tail (update_menu_out w)) with
              | Some _, _ => menu_updates w
              | None, Some _ => S (menu_updates w)
              | None, None => S (S (menu_updates w))
              end
         else menu_updates w)
  ∧ (menu_updates w ≤ menu_updates (_refresh_worker w).2 ≤ menu_updates w + 2)%nat.
Proof.
  pose proof (collect_state_frame_aux w) as (Hmu & Hq & Ht).
  unfold _refresh_worker, try_except. rewrite run_bind.
  destruct (collect_state w) as [[[]|e] w1]; cbn [fst snd] in *.
  - unfold refresh_menu, set_menu. rewrite Ht.
    destruct (tray_icon w);
      [|cbn; split; [done|]; split; [done|]; split; [done|lia]].
    rewrite run_bind. unfold update_menu. rewrite Hq, Hmu.
    destruct (update_menu_out w) as [|[e|] [|[e'|] q]]; cbn;
      (split; [done|]; split; [done|]; split; [done|lia]).
  - split; [done|]. cbn. rewrite Hmu, Hq.
    split; [done|]. split; [done|lia].
Qed.

End AfterSetMapping.

Lemma set_mapping_then_refresh_witness :
  storage_ok 4 world_two_monitors
  ∧ collect_state (H:=ascii_builtins)
      (set_mapping "GSM|5B09|NOSN" 3 world_two_monitors).2
    = (Ok (), pass_from (H:=ascii_builtins)
                (set_mapping "GSM|5B09|NOSN" 3 world_two_monitors).2)
  ∧ idx_map (state (pass_from (H:=ascii_builtins)
                      (set_mapping "GSM|5B09|NOSN" 3 world_two_monitors).2))
    = <["GSM|5B09|NOSN" := 3]> (idx_map (state world_two_monitors)).
Proof.
  assert (storage_ok 4 world_two_monitors) as Hok by constructor.
  assert (collect_state (H:=ascii_builtins)
            (set_mapping "GSM|5B09|NOSN" 3 world_two_monitors).2
          = (Ok (), pass_from (H:=ascii_builtins)
                      (set_mapping "GSM|5B09|NOSN" 3 world_two_monitors).2))
    as Hrun by (vm_compute; reflexivity).
  split; [exact Hok|]. split; [exact Hrun|].
  exact (proj1 (set_mapping_then_refresh (H:=ascii_builtins)
                  "GSM|5B09|NOSN" 3 world_two_monitors _ Hok Hrun)).
Defined.

Lemma unsaved_mapping_is_reverted_witness :
  hd false (fs_faults world_read_only) = true
  ∧ collect_state (H:=ascii_builtins)
      (set_mapping "DEL|A0F1|X7" 3 world_read_only).2
    = (Ok (), pass_from (H:=ascii_builtins)
                (set_mapping "DEL|A0F1|X7" 3 world_read_only).2)
  ∧ map_file (pass_from (H:=ascii_builtins)
                (set_mapping "DEL|A0F1|X7" 3 world_read_only).2)
    = map_file world_read_only.
Proof.
  assert (collect_state (H:=ascii_builtins)
            (set_mapping "DEL|A0F1|X7" 3 world_read_only).2
          = (Ok (), pass_from (H:=ascii_builtins)
                      (set_mapping "DEL|A0F1|X7" 3 world_read_only).2))
    as Hrun by (vm_compute; reflexivity).
  split; [reflexivity|]. split; [exact Hrun|].
  exact (proj1 (proj2 (unsaved_mapping_is_reverted (H:=ascii_builtins)
                         "DEL|A0F1|X7" 3 world_read_only _ eq_refl Hrun))).
Defined.

Lemma published_mapping_is_file_witness :
  map_file world0 = Missing
  ∧ collect_state (H:=ascii_builtins) world0
    = (Ok (), pass_from (H:=ascii_builtins) world0)
  ∧ idx_map (state (pass_from (H:=ascii_builtins) world0)) = ∅.
Proof.
  assert (collect_state (H:=ascii_builtins) world0
          = (Ok (), pass_from (H:=ascii_builtins) world0))
    as Hrun by (vm_compute; reflexivity).
  split; [reflexivity|]. split; [exact Hrun|].
  exact (proj1 (proj2 (published_mapping_is_file (H:=ascii_builtins) world0 _
                         Hrun) eq_refl)).
Defined.

Lemma refresh_worker_menu_witness :
  (collect_state (H:=ascii_builtins) world_two_monitors).1 = Ok ()
  ∧ menu_updates (_refresh_worker (H:=ascii_builtins) world_two_monitors).2 = 2%nat.
Proof.
  assert ((collect_state (H:=ascii_builtins) world_two_monitors).1 = Ok ())
    as Hok by (vm_compute; reflexivity).
  split; [exact Hok|].
  exact (proj1 (proj2 (proj2 (refresh_worker_menu (H:=ascii_builtins)
                               world_two_monitors))) Hok).
Defined.

(** ** The menu built from the cache *)

Lemma append_assoc (a b c : string) : (a +:+ b) +:+ c = a +:+ (b +:+ c).
Proof.
  induction a as [|x a IH]; [done|].
  change (String x ((a +:+ b) +:+ c) = String x (a +:+ (b +:+ c))).
  by rewrite IH.
Qed.

Lemma str_join_app (l1 l2 : list string) :
  str_join (l1 ++ l2) = str_join l1 +:+ str_join l2.
Proof.
  induction l1 as [|a l1 IH]; [done|].
  cbn [app str_join foldr]. fold (str_join (l1 ++ l2)). fold (str_join l1).
  by rewrite IH, append_assoc.
Qed.

Lemma str_join_code_points (s : string) : str_join (code_points s) = s.
Proof.
  induction s as [|c s IH]; [done|]. cbn [code_points].
  destruct (code_points s) as [|ch rest]; [by rewrite <- IH|].
  destruct (starts_continuation ch); by rewrite <- IH.
Qed.

(** Cutting a [str] between two characters gives two [str]s with those
    characters. *)
Lemma code_points_take (s : string) (k : nat) :
  code_points (str_join (take k (code_points s))) = take k (code_points s).
Proof.
  revert k. induction s as [|c s IH]; intros k; [by destruct k|].
  cbn [code_points].
  destruct (code_points s) as [|ch rest] eqn:Hcp.
  - destruct k; [done|]. by destruct k.
  - destruct (starts_continuation ch) eqn:Hch.
    + destruct k as [|k]; [done|]. specialize (IH (S k)).
      cbn [take] in *. cbn [str_join foldr] in *.
      change (String c ch +:+ ?x) with (String c (ch +:+ x)).
      cbn [code_points]. rewrite IH. by rewrite Hch.
    + destruct k as [|k]; [done|]. specialize (IH k).
      change (take (S k) (String c "" :: ch :: rest))
        with (String c "" :: take k (ch :: rest)).
      cbn [str_join foldr]. fold (str_join (take k (ch :: rest))).
      change (String c "" +:+ ?x) with (String c x).
      cbn [code_points]. rewrite IH.
      destruct k as [|k]; [done|]. cbn [take]. by rewrite Hch.
Qed.

Lemma code_points_drop (s : string) (k : nat) :
  code_points (str_join (drop k (code_points s))) = drop k (code_points s).
Proof.
  revert k. induction s as [|c s IH]; intros k; [by destruct k|].
  destruct k as [|k]; [by rewrite drop_0, str_join_code_points|].
  cbn [code_points].
  destruct (code_points s) as [|ch rest] eqn:Hcp; [by destruct k|].
  destruct (starts_continuation ch).
  - apply (IH (S k)).
  - apply (IH k).
Qed.

(** X18. [_short_fp] returns the end of the fingerprint, cut between two
    characters: the whole fingerprint when [len] counts at most six
    characters, its last six characters otherwise. *)
Theorem short_fp_is_suffix (fp : string) :
  (∃ pre, fp = pre +:+ _short_fp fp
          ∧ code_points fp = code_points pre ++ code_points (_short_fp fp))
  ∧ py_len (_short_fp fp) = (py_len fp `min` 6)%nat
  ∧ ((py_len fp ≤ 6)%nat → _short_fp fp = fp).
Proof.
  unfold _short_fp, py_len. destruct (6 <? length (code_points fp))%nat eqn:Hlen.
  - apply Nat.ltb_lt in Hlen. split; [|split; [|lia]].
    + exists (str_join (take (length (code_points fp) - 6) (code_points fp))).
      rewrite <- str_join_app, code_points_take, code_points_drop, take_drop.
      by rewrite str_join_code_points.
    + rewrite code_points_drop, length_drop. lia.
  - apply Nat.ltb_ge in Hlen. split; [by exists ""|]. split; [lia|done].
Qed.

Lemma short_fp_is_suffix_witness :
  (py_len "abcdeż" ≤ 6)%nat ∧ _short_fp "abcdeż" = "abcdeż"
  ∧ _short_fp "GSM|5B09|NOSN" = "9|NOSN"
  ∧ _short_fp "zażółć gęślą" = " gęślą".
Proof.
  assert (py_len "abcdeż" ≤ 6)%nat as Hlen by (vm_compute; lia).
  split; [exact Hlen|].
  split; [exact (proj2 (proj2 (short_fp_is_suffix "abcdeż")) Hlen)|].
  split; reflexivity.
Defined.

(** X19. The index-mapping menu has one submenu per monitor, in order;
    each submenu has max(8, number of monitors) entries; its k-th entry
    (from 1) sets the mapping of that monitor's fingerprint to k, and it
    carries the check mark exactly when k is the monitor's effective index,
    so at most one entry is checked, and none when that index lies outside
    the offered range. *)
Theorem map_menu_shape (ms : list Monitor) (im : gmap string Z) (i : nat)
    (m : Monitor) :
  ms !! i = Some m →
  ∃ sub, map_menu ms im !! i = Some sub
    ∧ length (items sub)
      = Z.to_nat (Z.max MAX_IDX_CHOICES (Z.of_nat (length ms)))
    ∧ (∀ k item, items sub !! k = Some item →
         on_click item = MapChoice (mon_fp m) (Z.of_nat k + 1)
         ∧ (text item = pretty (Z.of_nat k + 1) +:+ " ✓"
            ↔ Z.of_nat k + 1 = effective_index im m))
    ∧ (¬ (1 ≤ effective_index im m
            ≤ Z.max MAX_IDX_CHOICES (Z.of_nat (length ms))) →
       ∀ k item, items sub !! k = Some item →
         text item = pretty (Z.of_nat k + 1) +:+ " ").
Proof.
  intros Hm. unfold map_menu. rewrite list_lookup_fmap, Hm. cbn [fmap option_fmap option_map].
  eexists. split; [reflexivity|]. cbn [items].
  unfold map_choices. split; [by rewrite length_fmap, length_seqZ|].
  assert (∀ k item,
    ((λ n, {| text := pretty n +:+ " " +:+ (if n =? default (mon_index m) (im !! mon_fp m) then "✓" else "");
              on_click := MapChoice (mon_fp m) n |})
       <$> seqZ 1 (Z.max MAX_IDX_CHOICES (Z.of_nat (length ms)))) !! k = Some item →
    item = {| text := pretty (Z.of_nat k + 1) +:+ " "
                      +:+ (if Z.of_nat k + 1 =? effective_index im m
                           then "✓" else "");
              on_click := MapChoice (mon_fp m) (Z.of_nat k + 1) |}
    ∧ Z.of_nat k + 1 ≤ Z.max MAX_IDX_CHOICES (Z.of_nat (length ms))) as Hitem.
  { intros k item Hk. rewrite list_lookup_fmap in Hk.
    destruct (seqZ _ _ !! k) as [n|] eqn:Hn; [|done].
    apply lookup_seqZ in Hn as [-> Hlt]. injection Hk as <-.
    unfold effective_index. rewrite (Z.add_comm 1). split; [done|lia]. }
  split.
  - intros k item Hk. apply Hitem in Hk as [-> _]. cbn [text on_click].
    split; [done|]. destruct (Z.eqb_spec (Z.of_nat k + 1) (effective_index im m)).
    + done.
    + split; [|done]. intros Heq. apply (inj (String.app _)) in Heq. done.
  - intros Hout k item Hk. apply Hitem in Hk as [-> Hle]. cbn [text].
    destruct (Z.eqb_spec (Z.of_nat k + 1) (effective_index im m)); [lia|].
    f_equal.
Qed.

Lemma map_menu_shape_witness :
  mons (state world_after_pass) !! 1%nat
  = Some {| mon_index := 2; mon_name := JStr "LG ULTRAGEAR";
            mon_fp := "GSM|5B09|NOSN" |}
  ∧ ∃ sub, map_menu (mons (state world_after_pass))
             (idx_map (state world_after_pass)) !! 1%nat = Some sub
           ∧ length (items sub) = 8%nat.
Proof.
  assert (mons (state world_after_pass) !! 1%nat
          = Some {| mon_index := 2; mon_name := JStr "LG ULTRAGEAR";
                    mon_fp := "GSM|5B09|NOSN" |}) as Hm
    by (vm_compute; reflexivity).
  split; [exact Hm|].
  destruct (map_menu_shape _ (idx_map (state world_after_pass)) _ _ Hm)
    as (sub & Hsub & Hlen & _).
  exists sub. split; [exact Hsub|]. rewrite Hlen. vm_compute. reflexivity.
Defined.

Section MenuLines.
Context `{PyBuiltins}.


End MenuLines.


(** X21. For each monitor the DPI submenu holds the eight presets 100 to
    300 in order, and every one of them acts on the monitor's effective
    index, the index its line in the menu shows: clicking a preset starts
    the set-DPI work for that percentage and that index. *)
Theorem dpi_menu_acts_on_shown_index (ms : list Monitor) (im : gmap string Z)
    (d : gmap Z string) (i : nat) (m : Monitor) :
  ms !! i = Some m →
  ∃ line dm,
    monitor_lines ms im d !! i = Some line
    ∧ dpi_menus ms im !! i = Some dm
    ∧ dict_get (kwargs line) "idx" = Some (JInt (effective_index im m))
    ∧ dpi_pct <$> dpi_items dm = DPI_CHOICES
    ∧ (∀ item, item ∈ dpi_items dm →
         dpi_idx item = effective_index im m
         ∧ dpi_text item = pretty (dpi_pct item) +:+ "%"
         ∧ ∀ w, threads (click_dpi item w).2
                = threads w ++ [SetDpiWork (dpi_pct item) (effective_index im m)]).
Proof.
  intros Hm. unfold monitor_lines, dpi_menus. rewrite !list_lookup_fmap, Hm.
  cbn [fmap option_fmap option_map].
  eexists _, _. split; [reflexivity|]. split; [reflexivity|].
  cbn [kwargs dpi_items]. split; [done|]. split; [done|].
  intros item (pct & -> & _)%list_elem_of_fmap. done.
Qed.

Lemma dpi_menu_acts_on_shown_index_witness :
  ∃ dm, dpi_menus (mons (state world_after_pass))
          (idx_map (state world_after_pass)) !! 0%nat = Some dm
        ∧ dpi_pct <$> dpi_items dm = DPI_CHOICES.
Proof.
  destruct (dpi_menu_acts_on_shown_index (mons (state world_after_pass))
              (idx_map (state world_after_pass)) ∅ 0%nat
              {| mon_index := 1; mon_name := JStr "DELL U2720Q";
                 mon_fp := "DEL|A0F1|X7" |}
              ltac:(vm_compute; reflexivity))
    as (line & dm & _ & Hdm & _ & Hpct & _).
  exists dm. split; [exact Hdm|exact Hpct].
Defined.

(** X22. The quick audio submenus exist only for a non-empty endpoint
    list (two for the outputs, two for the inputs); every entry is an
    endpoint of the snapshot with the role "console" or "communications",
    so the work a click starts runs [Set-AudioDevice] with [-DefaultOnly] or
    [-CommunicationOnly], never for both roles at once, and runs nothing for
    an endpoint whose id is empty. *)
Theorem audio_menus_offer (outs ins : list (json * json)) :
  (outs = [] → ins = [] → audio_menus outs ins = [])
  ∧ length (audio_menus outs ins)
    = ((if outs is [] then 0 else 2) + (if ins is [] then 0 else 2))%nat
  ∧ (∀ menu item, menu ∈ audio_menus outs ins → item ∈ audio_items menu →
       (audio_text item, audio_id item) ∈ outs ++ ins
       ∧ (audio_role item = "console" ∨ audio_role item = "communications")
       ∧ ∀ w, threads (click_audio item w).2
              = threads w ++ [SetAudioWork (audio_id item) (audio_role item)]
            ∧ launched (set_audio_work (audio_id item) (audio_role item) w).2
              = launched w
                ++ (if truthy (audio_id item)
                    then [PowerShell
                            (SetAudioDevice (audio_id item)
                               (if String.eqb (audio_role item) "console"
                                then "-DefaultOnly" else "-CommunicationOnly"))]
                    else [])).
Proof.
  split; [by intros -> ->|]. split; [by destruct outs, ins|].
  assert (∀ role pool item, item ∈ audio_items_for role pool →
            (audio_text item, audio_id item) ∈ pool ∧ audio_role item = role)
    as Hpool.
  { intros role pool item ([n i] & -> & Hin)%list_elem_of_fmap. done. }
  assert (∀ item role pool,
            role = "console" ∨ role = "communications" →
            item ∈ audio_items_for role pool →
            ∀ w, launched (set_audio_work (audio_id item) (audio_role item) w).2
                 = launched w
                   ++ (if truthy (audio_id item)
                       then [PowerShell
                               (SetAudioDevice (audio_id item)
                                  (if String.eqb (audio_role item) "console"
                                   then "-DefaultOnly" else "-CommunicationOnly"))]
                       else [])) as Hwork.
  { intros item role pool Hrole Hin w. apply Hpool in Hin as [_ ->].
    unfold set_audio_work, try_finally, set_default_device.
    destruct (truthy (audio_id item)); simpl.
    - rewrite run_bind, run_ps_run.
      destruct Hrole as [-> | ->]; by destruct (hd (Ok quiet) (ps_out w)).
    - by rewrite app_nil_r. }
  intros menu item Hmenu Hitem. unfold audio_menus in Hmenu.
  apply elem_of_app in Hmenu as [Hmenu|Hmenu].
  - destruct outs as [|o outs]; [by apply elem_of_nil in Hmenu|].
    apply elem_of_cons in Hmenu as [->|Hmenu];
      [|apply elem_of_cons in Hmenu as [->|Hmenu];
        [|by apply elem_of_nil in Hmenu]];
      cbn [audio_items] in Hitem;
      (pose proof (Hpool _ _ _ Hitem) as [Hin Hrole];
       split; [apply elem_of_app; by left|]; split; [rewrite Hrole; auto|];
       intros w; split; [done|]; eapply Hwork; [|exact Hitem]; auto).
  - destruct ins as [|o ins]; [by apply elem_of_nil in Hmenu|].
    apply elem_of_cons in Hmenu as [->|Hmenu];
      [|apply elem_of_cons in Hmenu as [->|Hmenu];
        [|by apply elem_of_nil in Hmenu]];
      cbn [audio_items] in Hitem;
      (pose proof (Hpool _ _ _ Hitem) as [Hin Hrole];
       split; [apply elem_of_app; by right|]; split; [rewrite Hrole; auto|];
       intros w; split; [done|]; eapply Hwork; [|exact Hitem]; auto).
Qed.

Lemma audio_menus_offer_witness :
  speakers_media_menu ∈ audio_menus (outs state1) (ins state1)
  ∧ speakers_media_item ∈ audio_items speakers_media_menu
  ∧ launched (set_audio_work (audio_id speakers_media_item)
                (audio_role speakers_media_item) world0).2
    = [PowerShell (SetAudioDevice (JStr "{0.0.0.00000000}.{a1}") "-DefaultOnly")].
Proof.
  assert (speakers_media_menu ∈ audio_menus (outs state1) (ins state1)) as Hmenu
    by apply list_elem_of_here.
  assert (speakers_media_item ∈ audio_items speakers_media_menu) as Hitem
    by apply list_elem_of_here.
  split; [exact Hmenu|]. split; [exact Hitem|].
  destruct (audio_menus_offer (outs state1) (ins state1)) as (_ & _ & Hoffer).
  destruct (Hoffer _ _ Hmenu Hitem) as (_ & _ & Hclick).
  exact (proj2 (Hclick world0)).
Defined.

(** ** Threads and the lock *)

(** X23. While the refresh thread replaces the snapshot and menu threads
    read it, in every interleaving at most one thread is inside its
    [with state_lock:] block: never the refresh thread together with a menu
    thread, never two menu threads. Outside the refresh thread's block the
    cache is whole: it holds the old snapshot or the new one. *)
Theorem mutual_exclusion (old new : State) (locals : list State) (c : Config) :
  rtc (step new) (start old locals) c →
  (∀ k i k' l, writer c = Inside k → readers c !! i = Some (Inside k', l) → False)
  ∧ (∀ i j k k' l l',
       readers c !! i = Some (Inside k, l) →
       readers c !! j = Some (Inside k', l') → i = j)
  ∧ ((∀ k, writer c ≠ Inside k) → shared c = old ∨ shared c = new).
Proof.
  intros Hrun. apply inv_reachable in Hrun as [Hw Hr].
  unfold writer_inv in Hw. split; [|split].
  - intros k i k' l Hpc Hi. rewrite Hpc in Hw. destruct Hw as (Hlk & _).
    destruct (Hr i _ Hi) as (Hlk' & _). congruence.
  - intros i j k k' l l' Hi Hj.
    destruct (Hr i _ Hi) as (Hlk & _). destruct (Hr j _ Hj) as (Hlk' & _).
    congruence.
  - intros Hout. destruct (writer c) as [|k|]; [left|by destruct (Hout k)|right];
      by destruct Hw.
Qed.

Lemma mutual_exclusion_witness :
  rtc (step state1) (start state0 [state0])
    {| shared := state1; lock := None; writer := Past;
       readers := [(Past, state1)] |}
  ∧ (state1 = state0 ∨ state1 = state1).
Proof.
  split; [apply run_writer_then_reader|].
  refine (proj2 (proj2 (mutual_exclusion state0 state1 [state0] _
                          (run_writer_then_reader state0 state1 state0))) _).
  intros k. discriminate.
Defined.

Lemma lock_inv_step (new : State) (c c' : Config) :
  lock_inv c → step new c c' → lock_inv c'.
Proof.
  unfold lock_inv. intros Hinv Hstep.
  destruct Hstep as [c Hpc Hfree|c k f Hpc Hf|c Hpc|c i l Hi Hfree
                    |c i k l f Hi Hf|c i l Hi]; cbn [lock writer readers].
  - by exists 0%nat.
  - destruct (lock c) as [[|j]|]; [by exists (S k)|done|done].
  - done.
  - exists 0%nat, l. apply list_lookup_insert_eq. by eapply lookup_lt_Some.
  - destruct (lock c) as [[|j]|]; [done| |done].
    destruct Hinv as (k' & l' & Hj). destruct (decide (i = j)) as [->|Hne].
    + eexists _, _. apply list_lookup_insert_eq. by eapply lookup_lt_Some.
    + exists k', l'. by rewrite list_lookup_insert_ne.
  - done.
Qed.

Lemma lock_inv_reachable (old new : State) (locals : list State) (c : Config) :
  rtc (step new) (start old locals) c → lock_inv c.
Proof.
  revert c. apply rtc_ind_r; [done|].
  intros c c' _ Hstep Hinv. by eapply lock_inv_step.
Qed.

Lemma readers_past_or_not (rs : list (pc * State)) :
  (∀ i r, rs !! i = Some r → r.1 = Past)
  ∨ ∃ i r, rs !! i = Some r ∧ r.1 ≠ Past.
Proof.
  induction rs as [|r rs [IH|(i & r' & Hi & Hne)]].
  - left. intros i r Hi. by rewrite lookup_nil in Hi.
  - destruct (decide (r.1 = Past)) as [Hp|Hp].
    + left. intros [|i] r' Hi; simpl in Hi; [by injection Hi as <-|by eapply IH].
    + right. by exists 0%nat, r.
  - right. by exists (S i), r'.
Qed.

(** X24. The threads never block one another for good: in every
    configuration the interleavings reach, either every thread has left its
    [with state_lock:] block or some thread can take its next step. *)
Theorem no_deadlock (old new : State) (locals : list State) (c : Config) :
  rtc (step new) (start old locals) c →
  all_past c ∨ ∃ c', step new c c'.
Proof.
  intros Hrun. pose proof (lock_inv_reachable _ _ _ _ Hrun) as Hlock.
  apply inv_reachable in Hrun as [Hw Hr].
  unfold lock_inv in Hlock. unfold writer_inv in Hw.
  destruct (lock c) as [[|i]|] eqn:Hlk.
  - right. destruct Hlock as [k Hpc]. rewrite Hpc in Hw.
    destruct Hw as (_ & Hk & _).
    destruct (decide (k = length writer_program)) as [->|Hne].
    + eexists. by apply writer_release.
    + destruct (lookup_lt_is_Some_2 writer_program k ltac:(lia)) as [f Hf].
      eexists. by eapply writer_assign.
  - right. destruct Hlock as (k & l & Hi).
    destruct (Hr i _ Hi) as (_ & Hk & _). cbn [fst] in Hk.
    destruct (decide (k = length reader_program)) as [->|Hne].
    + eexists. by eapply reader_release.
    + destruct (lookup_lt_is_Some_2 reader_program k ltac:(lia)) as [f Hf].
      eexists. by eapply reader_copy.
  - destruct (writer c) as [|k|] eqn:Hpc.
    + right. eexists. by apply writer_acquire.
    + by destruct Hw.
    + destruct (readers_past_or_not (readers c)) as [Hall|(i & [p l] & Hi & Hne)].
      * by left.
      * right. specialize (Hr i _ Hi). unfold reader_inv in Hr.
        cbn [fst snd] in Hr, Hne. rewrite Hlk in Hr.
        destruct p as [|k|]; [|by destruct Hr|done].
        eexists. by eapply reader_acquire.
Qed.

Lemma no_deadlock_witness :
  rtc (step state1) (start state0 [state0])
    {| shared := state1; lock := None; writer := Past;
       readers := [(Past, state1)] |}
  ∧ (all_past {| shared := state1; lock := None; writer := Past;
                 readers := [(Past, state1)] |}
     ∨ ∃ c', step state1 {| shared := state1; lock := None; writer := Past;
                            readers := [(Past, state1)] |} c').
Proof.
  split; [apply run_writer_then_reader|].
  exact (no_deadlock state0 state1 [state0] _
           (run_writer_then_reader state0 state1 state0)).
Defined.

(** ** The standard audio profile *)

Lemma launches_at_most_bind {A B} (n m : nat) (c : M A) (f : A → M B) :
  launches_at_most n c → (∀ a, launches_at_most m (f a)) →
  launches_at_most (n + m) (c ≫= f).
Proof.
  intros Hc Hf w. rewrite run_bind. destruct (Hc w) as (l & Hl & Hlen & Hall).
  destruct (c w) as [[a|e] w1]; cbn [snd] in *.
  - destruct (Hf a w1) as (l' & Hl' & Hlen' & Hall'). exists (l ++ l').
    rewrite Hl', Hl, length_app, app_assoc, forallb_app, Hall, Hall'.
    split; [done|]. split; [lia|done].
  - exists l. split; [done|]. split; [lia|done].
Qed.

Lemma launches_at_most_ret {A} (n : nat) (c : M A) :
  (∀ w, launched (c w).2 = launched w) → launches_at_most n c.
Proof.
  intros Hc w. exists []. rewrite app_nil_r.
  split; [done|]. split; [simpl; lia|done].
Qed.

Lemma launches_at_most_lift {A} (r : result A) : launches_at_most 0 (lift r).
Proof. by apply launches_at_most_ret. Qed.

Lemma launches_set_default_device (device_id : json) (role : string) :
  launches_at_most 1 (set_default_device device_id role).
Proof.
  intros w. unfold set_default_device. destruct (truthy device_id); simpl.
  - rewrite run_bind, run_ps_run. eexists [_].
    split; [by destruct (hd (Ok quiet) (ps_out w))|done].
  - exists []. rewrite app_nil_r. split; [done|]. split; [simpl; lia|done].
Qed.

Lemma preserves_threads_set_default_device (device_id : json) (role : string) :
  preserves threads (set_default_device device_id role).
Proof. intros w. apply set_default_device_threads. Qed.

Section Profile.
Context `{PyBuiltins}.

Lemma launches_set_first_named (target role : string) (ds : list json) :
  launches_at_most 1 (set_first_named target role ds).
Proof.
  induction ds as [|d ds IH]; [by apply launches_at_most_ret|].
  cbn [set_first_named].
  apply (launches_at_most_bind 0 1); [apply launches_at_most_lift|intros nm].
  destruct (String.eqb nm target); [|done].
  apply (launches_at_most_bind 0 1); [apply launches_at_most_lift|intros id].
  apply launches_set_default_device.
Qed.

Lemma preserves_threads_set_first_named (target role : string) (ds : list json) :
  preserves threads (set_first_named target role ds).
Proof.
  induction ds as [|d ds IH]; [done|]. cbn [set_first_named].
  apply preserves_bind; [done|intros nm].
  destruct (String.eqb nm target); [|done].
  apply preserves_bind; [done|intros id].
  apply preserves_threads_set_default_device.
Qed.

(** X25. [set_standard_devices] lists the audio devices once and then
    runs at most one [Set-AudioDevice] for each of the four entries of its
    profile, and nothing else; it starts the refresh thread only when it completes: when it
    raises (PowerShell cannot be run, or a device is not of the expected
    shape) no refresh is started. *)
Theorem set_standard_devices_refresh (w : World) :
  (∃ l, launched (set_standard_devices w).2
        = launched w ++ PowerShell GetAudioDeviceList :: l
        ∧ (length l ≤ 4)%nat ∧ forallb is_set_audio l = true)
  ∧ ((set_standard_devices w).1 = Ok () →
       threads (set_standard_devices w).2 = threads w ++ [RefreshWorker])
  ∧ (∀ e, (set_standard_devices w).1 = Raise e →
       threads (set_standard_devices w).2 = threads w).
Proof.
  unfold set_standard_devices. rewrite run_bind, list_audio_devices_run.
  assert (threads (after_ps [GetAudioDeviceList] w) = threads w) as Hth0 by done.
  assert (launched (after_ps [GetAudioDeviceList] w)
          = launched w ++ [PowerShell GetAudioDeviceList]) as Hl0 by done.
  destruct (hd (Ok quiet) (ps_out w)) as [cp|e]; cbn [fst snd].
  2:{ split; [exists []; rewrite Hl0; split; [done|split; [simpl; lia|done]]|].
      split; [done|]. intros _ _. exact Hth0. }
  set (loop := for_each _ standard_profile ()).
  assert (launches_at_most 4 loop) as Hloop.
  { unfold loop, standard_profile. cbn [for_each].
    repeat (apply (launches_at_most_bind 1 _);
            [apply (launches_at_most_bind 0 1);
             [apply launches_at_most_lift|intros; apply launches_set_first_named]
            |intros []]).
    by apply launches_at_most_ret. }
  assert (preserves threads loop) as Hthreads.
  { unfold loop. apply preserves_for_each. intros [] [t r].
    apply preserves_bind; [done|intros ds].
    apply preserves_threads_set_first_named. }
  rewrite run_bind.
  destruct (Hloop (after_ps [GetAudioDeviceList] w)) as (l & Hl & Hlen & Hall).
  specialize (Hthreads (after_ps [GetAudioDeviceList] w)).
  destruct (loop (after_ps [GetAudioDeviceList] w)) as [[[]|e] w1];
    cbn [fst snd] in *.
  - unfold refresh_state_async, start_thread. cbn.
    split; [exists l; by rewrite Hl, Hl0, <- app_assoc|].
    split; [by rewrite Hthreads, Hth0|done].
  - split; [exists l; by rewrite Hl, Hl0, <- app_assoc|].
    split; [done|]. intros _ _. by rewrite Hthreads, Hth0.
Qed.

End Profile.

Lemma set_standard_devices_refresh_witness :
  (set_standard_devices (H:=ascii_builtins)
     (world_audio (printed_json voicemeeter_devices))).1 = Ok ()
  ∧ threads (set_standard_devices (H:=ascii_builtins)
               (world_audio (printed_json voicemeeter_devices))).2
    = [RefreshWorker].
Proof.
  assert ((set_standard_devices (H:=ascii_builtins)
             (world_audio (printed_json voicemeeter_devices))).1 = Ok ()) as Hok
    by (vm_compute; reflexivity).
  split; [exact Hok|].
  exact (proj1 (proj2 (set_standard_devices_refresh (H:=ascii_builtins)
                         (world_audio (printed_json voicemeeter_devices)))) Hok).
Defined.

Example set_standard_devices_sample :
  launched (set_standard_devices (H:=ascii_builtins)
              (world_audio (printed_json voicemeeter_devices))).2
  = [PowerShell GetAudioDeviceList;
     PowerShell (SetAudioDevice (JStr "{0.0.0.00000000}.{v1}") "-DefaultOnly");
     PowerShell (SetAudioDevice (JStr "{0.0.1.00000000}.{c1}") "-DefaultOnly");
     PowerShell (SetAudioDevice (JStr "{0.0.1.00000000}.{c1}")
                   "-CommunicationOnly")].
Proof. vm_compute. reflexivity. Qed.
